(** * powder-usrp: resource-request profiles for the POWDER testbed

    A shallow embedding of the two profile scripts of the repository,
    [profiles/srslte-otalab.py] (the OTA-lab profile) and [profile.py] (the
    general-deployment profile), and the properties of the request tree they
    build.

    Both scripts are straight-line Python programs that mutate one request
    object through the portal library: they are embedded as computations of a
    small state monad over the portal context, whose result is either normal
    completion, [sys.exit], or an uncaught Python exception.  BANDWIDTH
    parameters are Python floats (in MHz): they are IEEE binary64 numbers,
    with NaN and rounding, and are embedded as Rocq's primitive floats. *)

From Stdlib Require Import String Ascii List ZArith Bool Lia Arith Floats.
From Stdlib Require Import DecimalString DecimalNat.
Import ListNotations.

Open Scope nat_scope.
Open Scope list_scope.
Open Scope string_scope.

(** ** The portal library, as far as the profiles use it

    The library ([geni.portal], [geni.rspec.pg]) is a collaborator outside
    the repository. Its objects and calls are modelled after the way the two
    scripts use them and after the data model of the specification
    (ResourceNode, RadioComponent, Link, SpectrumReservation, RequestTree). *)

Module Portal.

(** [portal.ParameterError(message, paramlist)] *)
Record ParameterError := mkParameterError {
  message : string;
  paramlist : list string
}.

(** [rspec.Execute(shell=..., command=...)] *)
Record Execute := mkExecute {
  shell : string;
  command : string
}.

(** [rspec.IPv4Address(address, netmask)] *)
Record IPv4Address := mkIPv4Address {
  address : string;
  netmask : string
}.

(** An interface of a node, as [node.addInterface(name)] creates it. *)
Record Interface := mkInterface {
  if_name : string;
  addresses : list IPv4Address
}.

(** [request.RawPC(client_id)]: attributes that are not set stay [None]. *)
Record RawPC := mkRawPC {
  client_id : string;
  hardware_type : option string;
  disk_image : option string;
  component_manager_id : option string;
  component_id : option string;
  services : list Execute;
  interfaces : list Interface
}.

(** Python objects are referred to by identity: a handle is the position of
    the resource in the request, in creation order. *)
Definition handle := nat.

(** What a link connects: an interface of a node, handed over with
    [link.addInterface(iface)], or a node, handed over with
    [link.addNode(node)]. *)
Inductive Endpoint :=
| ViaInterface (owner : handle) (iface : string)
| ViaNode (node : handle).

(** [request.Link(name)] *)
Record Link := mkLink {
  link_name : string;
  bandwidth : option Z;
  members : list Endpoint
}.

Inductive Resource :=
| RNode (n : RawPC)
| RLink (l : Link).

(** The request RSpec: the resources in creation order and the spectrum
    reservations [(low, high, power)] in request order. *)
Record Request := mkRequest {
  resources : list Resource;
  spectrum : list (float * float * Z)
}.

(** The portal context of one process. [request] is [None] until
    [makeRequestRSpec] has run; [printed] is what [printRequestRSpec] wrote. *)
Record Context := mkContext {
  parameterErrors : list ParameterError;
  request : option Request;
  printed : option Request
}.

(** The context a fresh process starts with. *)
Definition fresh : Context :=
  {| parameterErrors := []; request := None; printed := None |}.

(** How a run of a piece of the script ends. *)
Inductive Result (A : Type) :=
| Done (a : A) (c : Context)     (* ran to its end *)
| Exit (c : Context)             (* sys.exit(1) *)
| Raise (c : Context).           (* uncaught exception (NameError) *)
Arguments Done {A} a c.
Arguments Exit {A} c.
Arguments Raise {A} c.

Definition M (A : Type) := Context -> Result A.

Definition ret {A} (a : A) : M A := fun c => Done a c.

Definition bind {A B} (m : M A) (k : A -> M B) : M B :=
  fun c => match m c with
           | Done a c' => k a c'
           | Exit c' => Exit c'
           | Raise c' => Raise c'
           end.

Declare Scope portal_scope.
Delimit Scope portal_scope with portal.
Notation "x <- m ;; k" := (bind m (fun x => k))
  (at level 61, m at next level, right associativity) : portal_scope.
Notation "m ;; k" := (bind m (fun _ => k))
  (at level 61, right associativity) : portal_scope.
Open Scope portal_scope.

(** [if b: m] *)
Definition when (b : bool) (m : M unit) : M unit :=
  if b then m else ret tt.

(** [for i, x in enumerate(l): body(i, x)], counting from [i]. *)
Fixpoint for_enumerate {A} (body : nat -> A -> M unit) (i : nat) (l : list A)
  : M unit :=
  match l with
  | [] => ret tt
  | x :: l' => body i x ;; for_enumerate body (S i) l'
  end.

(** *** Python operators the scripts use *)

(** ["%d" % n] for a list index. *)
Definition fmt_d (n : nat) : string := NilEmpty.string_of_uint (Nat.to_uint n).

(** [os.path.join(a, b)] on a POSIX system. *)
Definition ends_with_slash (a : string) : bool :=
  match get (String.length a - 1) a with
  | Some ch => Ascii.eqb ch "/"%char
  | None => false
  end.

Definition os_path_join (a b : string) : string :=
  match get 0 b with
  | Some "/"%char => b
  | _ => if (String.eqb a "" || ends_with_slash a)%bool then a ++ b
         else a ++ "/" ++ b
  end.

(** Comparison of floats, [x < y] and [x > y]: IEEE comparisons, both False
    as soon as an operand is NaN. *)
Definition flt (x y : float) : bool := PrimFloat.ltb x y.
Definition fgt (x y : float) : bool := PrimFloat.ltb y x.

(** The portal library counts [link.bandwidth] in kb/s: the attribute is
    written out as the capacity of the link, which an RSpec gives in kb/s. *)
Definition bits_per_second (bw : Z) : Z := (bw * 1000)%Z.

(** *** Parameter errors *)

(** Modelled from the spec: [portal.context.reportError] belongs to the portal
    library, which is not part of the repository.  It records the error and
    returns (section 4.1: violations are collected, not surfaced at once). *)
Definition reportError (perr : ParameterError) : M unit :=
  fun c => Done tt {| parameterErrors := parameterErrors c ++ [perr];
                      request := request c;
                      printed := printed c |}.

(** Modelled from the spec: [portal.context.verifyParameters] belongs to the
    portal library.  With recorded errors it reports them and stops the
    process (section 4.1, failure semantics); otherwise it returns. *)
Definition verifyParameters : M unit :=
  fun c => match parameterErrors c with
           | [] => Done tt c
           | _ :: _ => Exit c
           end.

(** *** Building the request *)

(** Modelled from the spec: [portal.context.makeRequestRSpec] belongs to the
    portal library. It binds a new, empty request tree. *)
Definition makeRequestRSpec : M unit :=
  fun c => Done tt {| parameterErrors := parameterErrors c;
                      request := Some {| resources := []; spectrum := [] |};
                      printed := printed c |}.

(** Access to the global [request]; a NameError while it is unbound. *)
Definition on_request {A} (f : Request -> A * Request) : M A :=
  fun c => match request c with
           | None => Raise c
           | Some r => let (a, r') := f r in
                       Done a {| parameterErrors := parameterErrors c;
                                 request := Some r';
                                 printed := printed c |}
           end.

Definition add_resource (x : Resource) : M handle :=
  on_request (fun r => (length (resources r),
                        {| resources := resources r ++ [x];
                           spectrum := spectrum r |})).

(** Mutation of the object behind handle [h]. Handles come from the creating
    calls, so the position exists; elsewhere the list is left as it is. *)
Fixpoint update_at {A} (h : nat) (f : A -> A) (l : list A) : list A :=
  match l, h with
  | [], _ => []
  | x :: l', O => f x :: l'
  | x :: l', S h' => x :: update_at h' f l'
  end.

Definition update_resource (h : handle) (f : Resource -> Resource) : M unit :=
  on_request (fun r => (tt, {| resources := update_at h f (resources r);
                               spectrum := spectrum r |})).

Definition update_node (h : handle) (f : RawPC -> RawPC) : M unit :=
  update_resource h (fun x => match x with RNode n => RNode (f n) | _ => x end).

Definition update_link (h : handle) (f : Link -> Link) : M unit :=
  update_resource h (fun x => match x with RLink l => RLink (f l) | _ => x end).

(** [request.RawPC(name)] *)
Definition request_RawPC (name : string) : M handle :=
  add_resource (RNode {| client_id := name;
                         hardware_type := None;
                         disk_image := None;
                         component_manager_id := None;
                         component_id := None;
                         services := [];
                         interfaces := [] |}).

(** [request.Link(name)] *)
Definition request_Link (name : string) : M handle :=
  add_resource (RLink {| link_name := name; bandwidth := None; members := [] |}).

(** [node.hardware_type = v] *)
Definition set_hardware_type (h : handle) (v : string) : M unit :=
  update_node h (fun n => {| client_id := client_id n;
                             hardware_type := Some v;
                             disk_image := disk_image n;
                             component_manager_id := component_manager_id n;
                             component_id := component_id n;
                             services := services n;
                             interfaces := interfaces n |}).

(** [node.disk_image = v] *)
Definition set_disk_image (h : handle) (v : string) : M unit :=
  update_node h (fun n => {| client_id := client_id n;
                             hardware_type := hardware_type n;
                             disk_image := Some v;
                             component_manager_id := component_manager_id n;
                             component_id := component_id n;
                             services := services n;
                             interfaces := interfaces n |}).

(** [node.component_manager_id = v] *)
Definition set_component_manager_id (h : handle) (v : string) : M unit :=
  update_node h (fun n => {| client_id := client_id n;
                             hardware_type := hardware_type n;
                             disk_image := disk_image n;
                             component_manager_id := Some v;
                             component_id := component_id n;
                             services := services n;
                             interfaces := interfaces n |}).

(** [node.component_id = v] *)
Definition set_component_id (h : handle) (v : string) : M unit :=
  update_node h (fun n => {| client_id := client_id n;
                             hardware_type := hardware_type n;
                             disk_image := disk_image n;
                             component_manager_id := component_manager_id n;
                             component_id := Some v;
                             services := services n;
                             interfaces := interfaces n |}).

(** [node.addService(svc)]: services keep the order in which they are added. *)
Definition addService (h : handle) (svc : Execute) : M unit :=
  update_node h (fun n => {| client_id := client_id n;
                             hardware_type := hardware_type n;
                             disk_image := disk_image n;
                             component_manager_id := component_manager_id n;
                             component_id := component_id n;
                             services := services n ++ [svc];
                             interfaces := interfaces n |}).

(** [node.addInterface(name)]: the interface is known by its node and name. *)
Definition addInterface (h : handle) (name : string) : M (handle * string) :=
  update_node h (fun n => {| client_id := client_id n;
                             hardware_type := hardware_type n;
                             disk_image := disk_image n;
                             component_manager_id := component_manager_id n;
                             component_id := component_id n;
                             services := services n;
                             interfaces := interfaces n ++
                               [{| if_name := name; addresses := [] |}] |}) ;;
  ret (h, name).

(** [iface.addAddress(addr)] *)
Definition addAddress (i : handle * string) (addr : IPv4Address) : M unit :=
  update_node (fst i)
    (fun n => {| client_id := client_id n;
                 hardware_type := hardware_type n;
                 disk_image := disk_image n;
                 component_manager_id := component_manager_id n;
                 component_id := component_id n;
                 services := services n;
                 interfaces :=
                   map (fun f => if String.eqb (if_name f) (snd i)
                                 then {| if_name := if_name f;
                                         addresses := addresses f ++ [addr] |}
                                 else f)
                       (interfaces n) |}).

(** [link.bandwidth = v] *)
Definition set_bandwidth (h : handle) (v : Z) : M unit :=
  update_link h (fun l => {| link_name := link_name l;
                             bandwidth := Some v;
                             members := members l |}).

(** [link.addInterface(iface)] *)
Definition link_addInterface (h : handle) (i : handle * string) : M unit :=
  update_link h (fun l => {| link_name := link_name l;
                             bandwidth := bandwidth l;
                             members := members l ++
                                          [ViaInterface (fst i) (snd i)] |}).

(** [node.addInterface()] without a name: the library names the interface
    "if<i>" for the first [i] in [range(0, 100)] that the node does not use
    yet (and keeps the last one tried when all are taken). *)
Fixpoint unused_if_name (existing : list string) (i fuel : nat) : string :=
  match fuel with
  | O => "if" ++ fmt_d i
  | S fuel' =>
      if existsb (String.eqb ("if" ++ fmt_d i)) existing
      then unused_if_name existing (S i) fuel'
      else "if" ++ fmt_d i
  end.

(** Modelled from the spec: [link.addNode(node)] belongs to the portal
    library. The node becomes the second endpoint of the link (section 3: a
    Link connects one ResourceNode interface and one RadioComponent); the
    library gets there by creating an unnamed interface on the node, which
    the node keeps, and handing that to the link. *)
Definition link_addNode (h : handle) (n : handle) : M unit :=
  update_node n
    (fun x => {| client_id := client_id x;
                 hardware_type := hardware_type x;
                 disk_image := disk_image x;
                 component_manager_id := component_manager_id x;
                 component_id := component_id x;
                 services := services x;
                 interfaces :=
                   interfaces x ++
                   [{| if_name :=
                         unused_if_name (map if_name (interfaces x)) 0 99;
                       addresses := [] |}] |}) ;;
  update_link h (fun l => {| link_name := link_name l;
                             bandwidth := bandwidth l;
                             members := members l ++ [ViaNode n] |}).

(** Modelled from the spec: [request.requestSpectrum(low, high, power)]
    belongs to the portal library. It attaches one more reservation tuple to
    the request (section 3, SpectrumReservation). *)
Definition requestSpectrum (low high : float) (power : Z) : M unit :=
  on_request (fun r => (tt, {| resources := resources r;
                               spectrum := spectrum r ++ [(low, high, power)] |})).

(** Modelled from the spec: [portal.context.printRequestRSpec] belongs to
    the portal library. It writes the request, as it is now, as the output of
    the process (section 4.4). *)
Definition printRequestRSpec : M unit :=
  fun c => match request c with
           | None => Raise c
           | Some r => Done tt {| parameterErrors := parameterErrors c;
                                  request := request c;
                                  printed := Some r |}
           end.

(** *** What a whole run amounts to *)

Inductive Outcome :=
| Emitted (r : Request)                       (* the printed request *)
| Rejected (errs : list ParameterError)       (* stopped on parameter errors *)
| Crashed
| Silent.

Definition outcome (res : Result unit) : Outcome :=
  match res with
  | Done _ c => match printed c with
                | Some r => Emitted r
                | None => Silent
                end
  | Exit c => Rejected (parameterErrors c)
  | Raise _ => Crashed
  end.

End Portal.

Import Portal.

(** ** profiles/srslte-otalab.py *)

Module OtaLab.

Module GLOBALS.
Definition BIN_PATH := "/local/repository/bin".
Definition ETC_PATH := "/local/repository/etc".
Definition DEFAULT_SRSRAN_HASH := "release_22_04".
Definition SRSLTE_IMG :=
  "urn:publicid:IDN+emulab.net+image+PowderTeam:U18LL-SRSLTE".
Definition MNGR_ID := "urn:publicid:IDN+emulab.net+authority+cm".
Definition SRS_DEPLOY_SCRIPT := os_path_join BIN_PATH "deploy-srs.sh".
Definition ULDEFLOFREQ : float := 3550.0.
Definition ULDEFHIFREQ : float := 3570.0.
Definition DLDEFLOFREQ : float := 3580.0.
Definition DLDEFHIFREQ : float := 3600.0.
End GLOBALS.

(** One entry of the struct parameter [x310_radios]. *)
Record X310Radio := mkX310Radio { radio_name : string }.

(** One entry of the struct parameter [b210_nodes]. *)
Record B210Node := mkB210Node { node_id : string }.

(** The bound parameters, [params = portal.context.bindParameters()]. *)
Record Params := mkParams {
  x310_pair_nodetype : string;
  x310_radios : list X310Radio;
  b210_nodes : list B210Node;
  ul_freq_min : float;
  ul_freq_max : float;
  dl_freq_min : float;
  dl_freq_max : float
}.

Section Script.
Variable params : Params.

Definition x310_node_pair (idx : nat) (x310_radio : X310Radio) : M unit :=
  radio_link <- request_Link ("radio-link-" ++ fmt_d idx) ;;
  set_bandwidth radio_link (10 * 1000 * 1000) ;;

  node <- request_RawPC (radio_name x310_radio ++ "-comp") ;;
  set_hardware_type node (x310_pair_nodetype params) ;;
  set_disk_image node GLOBALS.SRSLTE_IMG ;;
  set_component_manager_id node GLOBALS.MNGR_ID ;;
  addService node (mkExecute "bash"
    "/local/repository/bin/add-nat-and-ip-forwarding.sh") ;;
  addService node (mkExecute "bash" "/local/repository/bin/tune-cpu.sh") ;;
  addService node (mkExecute "bash" "/local/repository/bin/tune-sdr-iface.sh") ;;
  let cmd := GLOBALS.SRS_DEPLOY_SCRIPT ++ " " ++ GLOBALS.DEFAULT_SRSRAN_HASH in
  addService node (mkExecute "bash" cmd) ;;

  node_radio_if <- addInterface node "usrp_if" ;;
  addAddress node_radio_if (mkIPv4Address "192.168.40.1" "255.255.255.0") ;;
  link_addInterface radio_link node_radio_if ;;

  radio <- request_RawPC (radio_name x310_radio ++ "-radio") ;;
  set_component_id radio (radio_name x310_radio) ;;
  set_component_manager_id radio "urn:publicid:IDN+emulab.net+authority+cm" ;;
  link_addNode radio_link radio.

Definition b210_nuc_pair (idx : nat) (b210_node : B210Node) : M unit :=
  b210_nuc_pair_node <- request_RawPC (node_id b210_node ++ "-b210") ;;
  set_component_id b210_nuc_pair_node (node_id b210_node) ;;
  set_disk_image b210_nuc_pair_node GLOBALS.SRSLTE_IMG ;;
  addService b210_nuc_pair_node (mkExecute "bash"
    "/local/repository/bin/update-config-files.sh") ;;
  addService b210_nuc_pair_node (mkExecute "bash"
    "/local/repository/bin/tune-cpu.sh") ;;
  let cmd := GLOBALS.SRS_DEPLOY_SCRIPT ++ " " ++ GLOBALS.DEFAULT_SRSRAN_HASH in
  addService b210_nuc_pair_node (mkExecute "bash" cmd).

(** The conditions of the four [if] statements. *)
Definition ul_out_of_band : bool :=
  flt (ul_freq_min params) 3358 || fgt (ul_freq_min params) 3600
  || flt (ul_freq_max params) 3358 || fgt (ul_freq_max params) 3600.

Definition ul_too_close : bool :=
  flt (ul_freq_max params - ul_freq_min params) 1.

Definition dl_out_of_band : bool :=
  flt (dl_freq_min params) 3358 || fgt (dl_freq_min params) 3600
  || flt (dl_freq_max params) 3358 || fgt (dl_freq_max params) 3600.

Definition dl_too_close : bool :=
  flt (dl_freq_max params - dl_freq_min params) 1.

(** The errors they report. *)
Definition perr_ul_band := mkParameterError
  "CBAND uplink frequencies must be between 3358 and 3600 MHz"
  ["ul_freq_min"; "ul_freq_max"].
Definition perr_ul_sep := mkParameterError
  "Minimum and maximum frequencies must be separated by at least 1 MHz"
  ["ul_freq_min"; "ul_freq_max"].
Definition perr_dl_band := mkParameterError
  "CBAND downlink frequencies must be between 3358 and 3600 MHz"
  ["dl_freq_min"; "dl_freq_max"].
Definition perr_dl_sep := mkParameterError
  "Minimum and maximum frequencies must be separated by at least 1 MHz"
  ["dl_freq_min"; "dl_freq_max"].

(** "Check frequency parameters." *)
Definition check_frequency_parameters : M unit :=
  when ul_out_of_band (reportError perr_ul_band) ;;
  when ul_too_close (reportError perr_ul_sep) ;;
  when dl_out_of_band (reportError perr_dl_band) ;;
  when dl_too_close (reportError perr_dl_sep).

(** "Lastly, request resources." *)
Definition request_resources : M unit :=
  makeRequestRSpec ;;
  for_enumerate x310_node_pair 0 (x310_radios params) ;;
  for_enumerate b210_nuc_pair 0 (b210_nodes params) ;;
  requestSpectrum (ul_freq_min params) (ul_freq_max params) 0 ;;
  requestSpectrum (dl_freq_min params) (dl_freq_max params) 0 ;;
  printRequestRSpec.

(** The script, after [bindParameters]. *)
Definition main : M unit :=
  check_frequency_parameters ;;
  verifyParameters ;;
  request_resources.

End Script.

(** A run of the profile in a fresh process. *)
Definition run (params : Params) : Outcome := outcome (main params fresh).

End OtaLab.

(** ** profile.py *)

Module General.

(** One entry of the struct parameter [x310_radios]. *)
Record X310Radio := mkX310Radio { radio_name : string }.

(** One entry of the struct parameter [b210_nodes]. *)
Record B210Node := mkB210Node { aggregate_id : string }.

(** The bound parameters, [params = portal.context.bindParameters()]. *)
Record Params := mkParams {
  x310_pair_nodetype : string;
  token : string;
  user : string;
  password : string;
  x310_radios : list X310Radio;
  b210_nodes : list B210Node
}.

Section Script.
Variable params : Params.

Definition x310_node_pair (idx : nat) (x310_radio : X310Radio)
  (token user password : string) : M unit :=
  radio_link <- request_Link ("radio-link-" ++ fmt_d idx) ;;
  set_bandwidth radio_link (10 * 1000 * 1000) ;;

  node <- request_RawPC (radio_name x310_radio ++ "-comp") ;;
  set_hardware_type node (x310_pair_nodetype params) ;;
  set_disk_image node
    "urn:publicid:IDN+emulab.net+image+emulab-ops:UBUNTU18-64-STD" ;;
  set_component_manager_id node "urn:publicid:IDN+emulab.net+authority+cm" ;;
  addService node (mkExecute "bash"
    "/local/repository/bin/add-nat-and-ip-forwarding.sh") ;;
  addService node (mkExecute "bash"
    "/local/repository/bin/update-config-files.sh") ;;
  addService node (mkExecute "bash" "/local/repository/bin/tune-cpu.sh") ;;
  addService node (mkExecute "bash" "/local/repository/bin/tune-sdr-iface.sh") ;;
  addService node (mkExecute "bash"
    ("/local/repository/bin/setup.sh " ++ token ++ " " ++ user ++ " "
       ++ password)) ;;

  node_radio_if <- addInterface node "usrp_if" ;;
  addAddress node_radio_if (mkIPv4Address "192.168.40.1" "255.255.255.0") ;;
  link_addInterface radio_link node_radio_if ;;

  radio <- request_RawPC (radio_name x310_radio ++ "-x310") ;;
  set_component_id radio (radio_name x310_radio) ;;
  set_component_manager_id radio "urn:publicid:IDN+emulab.net+authority+cm" ;;
  link_addNode radio_link radio.

Definition b210_nuc_pair (idx : nat) (b210_node : B210Node)
  (token user password : string) : M unit :=
  b210_nuc_pair_node <-
    request_RawPC ("b210-" ++ aggregate_id b210_node ++ "-" ++ "nuc2") ;;
  let agg_full_name := "urn:publicid:IDN+" ++ aggregate_id b210_node
                         ++ ".powderwireless.net+authority+cm" in
  set_component_manager_id b210_nuc_pair_node agg_full_name ;;
  set_component_id b210_nuc_pair_node "nuc2" ;;
  set_disk_image b210_nuc_pair_node
    "urn:publicid:IDN+emulab.net+image+emulab-ops:UBUNTU18-64-STD" ;;
  addService b210_nuc_pair_node (mkExecute "bash"
    "/local/repository/bin/update-config-files.sh") ;;
  addService b210_nuc_pair_node (mkExecute "bash"
    "/local/repository/bin/tune-cpu.sh") ;;
  addService b210_nuc_pair_node (mkExecute "bash"
    ("/local/repository/bin/setup.sh " ++ token ++ " " ++ user ++ " "
       ++ password)).

(** The script, after [bindParameters]. *)
Definition main : M unit :=
  verifyParameters ;;
  makeRequestRSpec ;;
  for_enumerate
    (fun i x310_radio =>
       x310_node_pair i x310_radio (token params) (user params)
         (password params))
    0 (x310_radios params) ;;
  for_enumerate
    (fun i b210_node =>
       b210_nuc_pair i b210_node (token params) (user params)
         (password params))
    0 (b210_nodes params) ;;
  printRequestRSpec.

End Script.

(** A run of the profile in a fresh process. *)
Definition run (params : Params) : Outcome := outcome (main params fresh).

End General.

(** ** Vocabulary of the properties *)

(** The resources one call of the OTA-lab [x310_node_pair] leaves in the
    request, when the request held [base] resources before the call. *)
Definition otalab_x310_built (params : OtaLab.Params) (idx : nat)
  (base : handle) (x310_radio : OtaLab.X310Radio) : list Resource :=
  [ RLink {| link_name := "radio-link-" ++ fmt_d idx;
             bandwidth := Some (10 * 1000 * 1000)%Z;
             members := [ViaInterface (base + 1) "usrp_if";
                         ViaNode (base + 2)] |};
    RNode {| client_id := OtaLab.radio_name x310_radio ++ "-comp";
             hardware_type := Some (OtaLab.x310_pair_nodetype params);
             disk_image := Some OtaLab.GLOBALS.SRSLTE_IMG;
             component_manager_id := Some OtaLab.GLOBALS.MNGR_ID;
             component_id := None;
             services :=
               [ mkExecute "bash"
                   "/local/repository/bin/add-nat-and-ip-forwarding.sh";
                 mkExecute "bash" "/local/repository/bin/tune-cpu.sh";
                 mkExecute "bash" "/local/repository/bin/tune-sdr-iface.sh";
                 mkExecute "bash"
                   "/local/repository/bin/deploy-srs.sh release_22_04" ];
             interfaces :=
               [ mkInterface "usrp_if"
                   [mkIPv4Address "192.168.40.1" "255.255.255.0"] ] |};
    RNode {| client_id := OtaLab.radio_name x310_radio ++ "-radio";
             hardware_type := None;
             disk_image := None;
             component_manager_id :=
               Some "urn:publicid:IDN+emulab.net+authority+cm";
             component_id := Some (OtaLab.radio_name x310_radio);
             services := [];
             interfaces := [ mkInterface "if0" [] ] |} ].

(** The same for the general profile's [x310_node_pair]. *)
Definition general_x310_built (params : General.Params) (idx : nat)
  (base : handle) (x310_radio : General.X310Radio) : list Resource :=
  [ RLink {| link_name := "radio-link-" ++ fmt_d idx;
             bandwidth := Some (10 * 1000 * 1000)%Z;
             members := [ViaInterface (base + 1) "usrp_if";
                         ViaNode (base + 2)] |};
    RNode {| client_id := General.radio_name x310_radio ++ "-comp";
             hardware_type := Some (General.x310_pair_nodetype params);
             disk_image :=
               Some "urn:publicid:IDN+emulab.net+image+emulab-ops:UBUNTU18-64-STD";
             component_manager_id :=
               Some "urn:publicid:IDN+emulab.net+authority+cm";
             component_id := None;
             services :=
               [ mkExecute "bash"
                   "/local/repository/bin/add-nat-and-ip-forwarding.sh";
                 mkExecute "bash"
                   "/local/repository/bin/update-config-files.sh";
                 mkExecute "bash" "/local/repository/bin/tune-cpu.sh";
                 mkExecute "bash" "/local/repository/bin/tune-sdr-iface.sh";
                 mkExecute "bash"
                   ("/local/repository/bin/setup.sh " ++ General.token params
                      ++ " " ++ General.user params ++ " "
                      ++ General.password params) ];
             interfaces :=
               [ mkInterface "usrp_if"
                   [mkIPv4Address "192.168.40.1" "255.255.255.0"] ] |};
    RNode {| client_id := General.radio_name x310_radio ++ "-x310";
             hardware_type := None;
             disk_image := None;
             component_manager_id :=
               Some "urn:publicid:IDN+emulab.net+authority+cm";
             component_id := Some (General.radio_name x310_radio);
             services := [];
             interfaces := [ mkInterface "if0" [] ] |} ].

(** The node one call of the OTA-lab [b210_nuc_pair] leaves in the request. *)
Definition otalab_b210_built (idx : nat) (base : handle)
  (b210_node : OtaLab.B210Node) : list Resource :=
  [ RNode {| client_id := OtaLab.node_id b210_node ++ "-b210";
             hardware_type := None;
             disk_image := Some OtaLab.GLOBALS.SRSLTE_IMG;
             component_manager_id := None;
             component_id := Some (OtaLab.node_id b210_node);
             services :=
               [ mkExecute "bash"
                   "/local/repository/bin/update-config-files.sh";
                 mkExecute "bash" "/local/repository/bin/tune-cpu.sh";
                 mkExecute "bash"
                   "/local/repository/bin/deploy-srs.sh release_22_04" ];
             interfaces := [] |} ].

(** The node one call of the general profile's [b210_nuc_pair] leaves. *)
Definition general_b210_built (params : General.Params) (idx : nat)
  (base : handle) (b210_node : General.B210Node) : list Resource :=
  [ RNode {| client_id :=
               "b210-" ++ General.aggregate_id b210_node ++ "-" ++ "nuc2";
             hardware_type := None;
             disk_image :=
               Some "urn:publicid:IDN+emulab.net+image+emulab-ops:UBUNTU18-64-STD";
             component_manager_id :=
               Some ("urn:publicid:IDN+" ++ General.aggregate_id b210_node
                       ++ ".powderwireless.net+authority+cm");
             component_id := Some "nuc2";
             services :=
               [ mkExecute "bash"
                   "/local/repository/bin/update-config-files.sh";
                 mkExecute "bash" "/local/repository/bin/tune-cpu.sh";
                 mkExecute "bash"
                   ("/local/repository/bin/setup.sh " ++ General.token params
                      ++ " " ++ General.user params ++ " "
                      ++ General.password params) ];
             interfaces := [] |} ].

(** [m] runs to its end on every context that has a request, and all it does
    is append [new base] to the [base] resources the request holds. *)
Definition appends (m : M unit) (new : handle -> list Resource) : Prop :=
  forall errs r pr,
    m (mkContext errs (Some r) pr) =
    Done tt (mkContext errs
               (Some (mkRequest (resources r ++ new (length (resources r)))
                        (spectrum r)))
               pr).

(** What a loop appends whose body appends [built idx base x]. *)
Fixpoint built_all {A} (built : nat -> handle -> A -> list Resource)
  (idx : nat) (base : handle) (l : list A) : list Resource :=
  match l with
  | [] => []
  | x :: l' =>
      (built idx base x ++
       built_all built (S idx) (base + length (built idx base x)) l')%list
  end.

(** The request the OTA-lab profile builds from its parameters. *)
Definition otalab_request (params : OtaLab.Params) : Request :=
  {| resources :=
       built_all (otalab_x310_built params) 0 0 (OtaLab.x310_radios params)
       ++ built_all otalab_b210_built 0
            (3 * length (OtaLab.x310_radios params))
            (OtaLab.b210_nodes params);
     spectrum :=
       [ (OtaLab.ul_freq_min params, OtaLab.ul_freq_max params, 0%Z);
         (OtaLab.dl_freq_min params, OtaLab.dl_freq_max params, 0%Z) ] |}.

(** The request the general profile builds from its parameters. *)
Definition general_request (params : General.Params) : Request :=
  {| resources :=
       built_all (general_x310_built params) 0 0 (General.x310_radios params)
       ++ built_all (general_b210_built params) 0
            (3 * length (General.x310_radios params))
            (General.b210_nodes params);
     spectrum := [] |}.

(** The rules on the frequency parameters, as the specification words them:
    a bound lies within the band, and a pair is at least 1 MHz apart. The
    comparisons and the difference are those of binary64. *)
Definition in_band (f : float) : Prop :=
  (3358 <=? f)%float = true /\ (f <=? 3600)%float = true.

Definition separated (lo hi : float) : Prop :=
  (1 <=? hi - lo)%float = true.

Definition valid_frequencies (params : OtaLab.Params) : Prop :=
  in_band (OtaLab.ul_freq_min params) /\
  in_band (OtaLab.ul_freq_max params) /\
  separated (OtaLab.ul_freq_min params) (OtaLab.ul_freq_max params) /\
  in_band (OtaLab.dl_freq_min params) /\
  in_band (OtaLab.dl_freq_max params) /\
  separated (OtaLab.dl_freq_min params) (OtaLab.dl_freq_max params).

(** The errors of the violated checks, in the order of the checks. *)
Definition violations (params : OtaLab.Params) : list ParameterError :=
  (if OtaLab.ul_out_of_band params then [OtaLab.perr_ul_band] else [])
  ++ (if OtaLab.ul_too_close params then [OtaLab.perr_ul_sep] else [])
  ++ (if OtaLab.dl_out_of_band params then [OtaLab.perr_dl_band] else [])
  ++ (if OtaLab.dl_too_close params then [OtaLab.perr_dl_sep] else []).

(** Boundary cases of the two rules, spelled out. *)
Definition at_or_within_band_edges (f : float) : Prop :=
  f = 3358%float \/ f = 3600%float \/
  ((3358 <? f)%float = true /\ (f <? 3600)%float = true).

Definition one_MHz_or_more_apart (lo hi : float) : Prop :=
  (hi - lo)%float = 1%float \/ (1 <? hi - lo)%float = true.

(** The kinds of resources of the data model, told apart by what the scripts
    set on them: a ResourceNode is a RawPC with a disk image, a RadioComponent
    is a RawPC that only names a component. *)
Definition is_link (x : Resource) : bool :=
  match x with RLink _ => true | RNode _ => false end.

Definition is_resource_node (x : Resource) : bool :=
  match x with
  | RNode n => match disk_image n with Some _ => true | None => false end
  | RLink _ => false
  end.

Definition is_radio_component (x : Resource) : bool :=
  match x with
  | RNode n => match disk_image n, component_id n with
               | None, Some _ => true
               | _, _ => false
               end
  | RLink _ => false
  end.

(** The [k]-th base-station triple of [res], built for the radio [name]:
    a link, a node and a radio component in consecutive positions, the link
    connecting the node's interface "usrp_if" and the component. *)
Definition triple_at (res : list Resource) (k : nat) (name : string) : Prop :=
  exists l n rd,
    nth_error res (3 * k) = Some (RLink l) /\
    nth_error res (3 * k + 1) = Some (RNode n) /\
    nth_error res (3 * k + 2) = Some (RNode rd) /\
    is_resource_node (RNode n) = true /\
    is_radio_component (RNode rd) = true /\
    component_id rd = Some name /\
    (exists addrs, In (mkInterface "usrp_if" addrs) (interfaces n)) /\
    members l = [ViaInterface (3 * k + 1) "usrp_if"; ViaNode (3 * k + 2)].

(** The pairing builder of each profile: the request is created and the loop
    over the X310 selections runs. *)
Definition otalab_pairing (params : OtaLab.Params)
  (radios : list OtaLab.X310Radio) : M unit :=
  makeRequestRSpec ;;
  for_enumerate (OtaLab.x310_node_pair params) 0 radios.

Definition general_pairing (params : General.Params)
  (radios : list General.X310Radio) : M unit :=
  makeRequestRSpec ;;
  for_enumerate
    (fun i x310_radio =>
       General.x310_node_pair params i x310_radio (General.token params)
         (General.user params) (General.password params))
    0 radios.

(** [m], started in [c], runs to its end and leaves a request that holds the
    resources [res]. *)
Definition builds (m : M unit) (c : Context) (res : list Resource) : Prop :=
  m c = Done tt (mkContext (parameterErrors c)
                   (Some (mkRequest res [])) (printed c)).

(** The default selection of the instructions: ota-x310-1 with a d430, and
    ota-nuc1. *)
Definition lab_defaults (ul_min ul_max dl_min dl_max : float) : OtaLab.Params :=
  OtaLab.mkParams "d430" [OtaLab.mkX310Radio "ota-x310-1"]
    [OtaLab.mkB210Node "ota-nuc1"] ul_min ul_max dl_min dl_max.

(** The names ([client_id]) of the RawPCs of a request, and the names of its
    links, in creation order. *)
Definition node_names (res : list Resource) : list string :=
  flat_map (fun x => match x with
                     | RNode n => [client_id n]
                     | RLink _ => []
                     end) res.

Definition link_names (res : list Resource) : list string :=
  flat_map (fun x => match x with
                     | RNode _ => []
                     | RLink l => [link_name l]
                     end) res.

(** A member of a link refers to something the request holds: the handle
    leads to a RawPC, which has the named interface. *)
Definition member_ok (res : list Resource) (e : Endpoint) : Prop :=
  match e with
  | ViaInterface h ifname =>
      exists n, nth_error res h = Some (RNode n) /\
                In ifname (map if_name (interfaces n))
  | ViaNode h => exists n, nth_error res h = Some (RNode n)
  end.

(** The handles a member holds. *)
Definition member_handle (e : Endpoint) : handle :=
  match e with
  | ViaInterface h _ => h
  | ViaNode h => h
  end.

(** The last character of a string (NUL for the empty string). *)
Definition last_char (s : string) : ascii :=
  last (list_ascii_of_string s) Ascii.zero.

(** At most one error: [[e]] if [b], nothing otherwise. *)
Definition error_if (b : bool) (e : ParameterError) : list ParameterError :=
  if b then [e] else [].

(** Two X310 and two B210 selections with the default frequencies. *)
Definition two_of_each : OtaLab.Params :=
  OtaLab.mkParams "d740"
    [OtaLab.mkX310Radio "ota-x310-1"; OtaLab.mkX310Radio "ota-x310-2"]
    [OtaLab.mkB210Node "ota-nuc1"; OtaLab.mkB210Node "ota-nuc2"]
    OtaLab.GLOBALS.ULDEFLOFREQ OtaLab.GLOBALS.ULDEFHIFREQ
    OtaLab.GLOBALS.DLDEFLOFREQ OtaLab.GLOBALS.DLDEFHIFREQ.

(** [m] only appends [n] resources: on a request that already holds
    resources it runs to its end, leaves them, the reservations, the recorded
    errors and the output as they are, and adds [n] resources behind them. *)
Definition only_appends (m : M unit) (n : nat) : Prop :=
  forall errs r0 pr,
    exists new,
      length new = n /\
      m (mkContext errs (Some r0) pr) =
      Done tt (mkContext errs
                 (Some (mkRequest (resources r0 ++ new) (spectrum r0))) pr).

(** ** Mutation through handles *)

Lemma update_at_app {A} (f : A -> A) (l t : list A) (k : nat) :
  update_at (length l + k) f (l ++ t) = (l ++ update_at k f t)%list.
Proof.
  induction l as [|x l IH]; simpl.
  - reflexivity.
  - now rewrite IH.
Qed.

Lemma update_at_app_0 {A} (f : A -> A) (l t : list A) :
  update_at (length l) f (l ++ t) = (l ++ update_at 0 f t)%list.
Proof.
  rewrite <- (Nat.add_0_r (length l)) at 1. apply update_at_app.
Qed.

(** Runs a builder on a request with a symbolic prefix of resources. *)
Ltac run_builder :=
  unfold appends; intros errs r pr; destruct r as [res sp];
  cbv [bind ret request_Link request_RawPC add_resource on_request
       set_bandwidth set_hardware_type set_disk_image
       set_component_manager_id set_component_id addService addInterface
       addAddress link_addInterface link_addNode update_node update_link
       update_resource request parameterErrors printed resources spectrum
       fst snd];
  repeat (rewrite ?length_app, <- ?app_assoc, <- ?Nat.add_assoc,
          ?update_at_app, ?update_at_app_0;
          cbn [update_at app Nat.add Datatypes.length client_id hardware_type disk_image
               component_manager_id component_id services interfaces
               link_name bandwidth members map if_name addresses]).

Lemma otalab_x310_node_pair_appends params idx x310_radio :
  appends (OtaLab.x310_node_pair params idx x310_radio)
          (fun base => otalab_x310_built params idx base x310_radio).
Proof.
  unfold OtaLab.x310_node_pair, otalab_x310_built.
  run_builder.
  reflexivity.
Qed.

Lemma general_x310_node_pair_appends params idx x310_radio :
  appends (General.x310_node_pair params idx x310_radio
             (General.token params) (General.user params)
             (General.password params))
          (fun base => general_x310_built params idx base x310_radio).
Proof.
  unfold General.x310_node_pair, general_x310_built.
  run_builder.
  reflexivity.
Qed.

Lemma otalab_b210_nuc_pair_appends idx b210_node :
  appends (OtaLab.b210_nuc_pair idx b210_node)
          (fun base => otalab_b210_built idx base b210_node).
Proof.
  unfold OtaLab.b210_nuc_pair, otalab_b210_built.
  run_builder.
  reflexivity.
Qed.

Lemma general_b210_nuc_pair_appends params idx b210_node :
  appends (General.b210_nuc_pair idx b210_node
             (General.token params) (General.user params)
             (General.password params))
          (fun base => general_b210_built params idx base b210_node).
Proof.
  unfold General.b210_nuc_pair, general_b210_built.
  run_builder.
  reflexivity.
Qed.

(** ** Loops over the selections *)

Section Loop.
Context {A : Type}.
Variable body : nat -> A -> M unit.
Variable built : nat -> handle -> A -> list Resource.
Hypothesis body_appends :
  forall idx x, appends (body idx x) (fun base => built idx base x).

Lemma for_enumerate_appends (l : list A) :
  forall idx,
    appends (for_enumerate body idx l)
            (fun base => built_all built idx base l).
Proof.
  induction l as [|x l IH]; intros idx errs r pr.
  - destruct r as [res sp]. simpl. unfold ret.
    now rewrite app_nil_r.
  - simpl. unfold bind. rewrite body_appends.
    rewrite IH. cbn [resources spectrum].
    now rewrite length_app, <- app_assoc.
Qed.

Variable w : nat.
Hypothesis built_width : forall idx base x, length (built idx base x) = w.

Lemma length_built_all (l : list A) :
  forall idx base, length (built_all built idx base l) = w * length l.
Proof.
  induction l as [|x l IH]; intros idx base; simpl.
  - now rewrite Nat.mul_0_r.
  - rewrite length_app, IH, built_width. lia.
Qed.

Lemma nth_error_built_all (l : list A) :
  forall idx base k x j,
    nth_error l k = Some x -> j < w ->
    nth_error (built_all built idx base l) (w * k + j) =
    nth_error (built (idx + k) (base + w * k) x) j.
Proof.
  induction l as [|y l IH]; intros idx base k x j Hk Hj.
  - destruct k; discriminate.
  - destruct k as [|k]; simpl in Hk |- *.
    + injection Hk as ->.
      rewrite Nat.mul_0_r, !Nat.add_0_r. simpl.
      apply nth_error_app1. now rewrite built_width.
    + rewrite nth_error_app2 by (rewrite built_width; lia).
      rewrite !built_width.
      replace (w * S k + j - w) with (w * k + j) by lia.
      rewrite (IH (S idx) (base + w) k x j Hk Hj).
      f_equal. f_equal; lia.
Qed.

Lemma in_built_all (l : list A) :
  forall idx base r,
    In r (built_all built idx base l) ->
    exists idx' base' x, In x l /\ In r (built idx' base' x).
Proof.
  induction l as [|y l IH]; intros idx base r Hr; simpl in Hr.
  - contradiction.
  - apply in_app_or in Hr. destruct Hr as [Hr|Hr].
    + exists idx, base, y. split; [now left | exact Hr].
    + destruct (IH _ _ _ Hr) as (idx' & base' & x & Hx & Hin).
      exists idx', base', x. split; [now right | exact Hin].
Qed.

Lemma count_built_all (f : Resource -> bool) (n : nat) (l : list A) :
  (forall idx base x, length (filter f (built idx base x)) = n) ->
  forall idx base,
    length (filter f (built_all built idx base l)) = n * length l.
Proof.
  intros Hn. induction l as [|x l IH]; intros idx base; simpl.
  - now rewrite Nat.mul_0_r.
  - rewrite filter_app, length_app, IH, Hn. lia.
Qed.

End Loop.

(** ** The two scripts from the request on *)

Lemma otalab_request_resources params c :
  OtaLab.request_resources params c =
  Done tt (mkContext (parameterErrors c)
             (Some (otalab_request params)) (Some (otalab_request params))).
Proof.
  unfold OtaLab.request_resources, bind at 1. unfold makeRequestRSpec.
  unfold bind at 1.
  rewrite (for_enumerate_appends _ _ (otalab_x310_node_pair_appends params)).
  unfold bind at 1.
  rewrite (for_enumerate_appends _ _ otalab_b210_nuc_pair_appends).
  cbn [resources spectrum length app].
  rewrite (length_built_all _ 3) by reflexivity.
  reflexivity.
Qed.

Lemma general_main params c :
  parameterErrors c = [] ->
  General.main params c =
  Done tt (mkContext []
             (Some (general_request params)) (Some (general_request params))).
Proof.
  intros Hc.
  unfold General.main, bind at 1. unfold verifyParameters. rewrite Hc.
  unfold bind at 1. unfold makeRequestRSpec. rewrite Hc.
  unfold bind at 1.
  rewrite (for_enumerate_appends _ _ (general_x310_node_pair_appends params)).
  unfold bind at 1.
  rewrite (for_enumerate_appends _ _ (general_b210_nuc_pair_appends params)).
  cbn [resources spectrum length app].
  rewrite (length_built_all _ 3) by reflexivity.
  reflexivity.
Qed.

(** ** The frequency checks *)

(** Order of binary64 numbers, from the specification of the primitive
    comparisons. *)
Lemma SFcompare_antisym (x y : spec_float) :
  SFcompare y x = option_map CompOpp (SFcompare x y).
Proof.
  destruct x as [sx|sx| |sx mx ex], y as [sy|sy| |sy my ey]; simpl;
    try reflexivity;
    try (destruct sx; reflexivity);
    try (destruct sy; reflexivity);
    try (destruct sx, sy; reflexivity).
  destruct sx, sy; try reflexivity;
    rewrite (Z.compare_antisym ex ey);
    destruct (ex ?= ey)%Z; simpl; try reflexivity;
    change (PosDef.Pos.compare_cont Eq my mx)
      with (Pos.compare_cont (CompOpp Eq) my mx);
    rewrite <- (Pos.compare_cont_antisym mx my Eq);
    now rewrite ?CompOpp_involutive.
Qed.

Lemma SFcompare_None (x y : spec_float) :
  SFcompare x y = None -> x = S754_nan \/ y = S754_nan.
Proof.
  destruct x as [sx|sx| |sx mx ex], y as [sy|sy| |sy my ey]; simpl;
    intros H; try discriminate; auto.
Qed.

Lemma leb_ltb_false (a b : float) :
  (a <=? b)%float = true -> (b <? a)%float = false.
Proof.
  rewrite leb_spec, ltb_spec. unfold SFleb, SFltb.
  rewrite (SFcompare_antisym (Prim2SF a) (Prim2SF b)).
  destruct (SFcompare (Prim2SF a) (Prim2SF b)) as [[| |]|]; simpl;
    intros H; first [reflexivity | discriminate].
Qed.

Lemma ltb_leb (a b : float) :
  (a <? b)%float = true -> (a <=? b)%float = true.
Proof.
  rewrite leb_spec, ltb_spec. unfold SFleb, SFltb.
  destruct (SFcompare (Prim2SF a) (Prim2SF b)) as [[| |]|]; simpl;
    intros H; first [reflexivity | discriminate].
Qed.

Lemma not_nan_Prim2SF (a : float) :
  is_nan a = false -> Prim2SF a <> S754_nan.
Proof.
  unfold is_nan. rewrite FloatAxioms.eqb_spec. intros H E.
  rewrite E in H. discriminate.
Qed.

Lemma not_ltb_leb (a b : float) :
  is_nan a = false -> is_nan b = false ->
  (a <? b)%float = false -> (b <=? a)%float = true.
Proof.
  intros Ha Hb. apply not_nan_Prim2SF in Ha, Hb.
  rewrite leb_spec, ltb_spec. unfold SFleb, SFltb.
  rewrite (SFcompare_antisym (Prim2SF a) (Prim2SF b)).
  destruct (SFcompare (Prim2SF a) (Prim2SF b)) as [[| |]|] eqn:E; simpl;
    intros H; try reflexivity; try discriminate.
  apply SFcompare_None in E. tauto.
Qed.

Lemma in_band_not_out (lo hi : float) :
  in_band lo -> in_band hi ->
  flt lo 3358 || fgt lo 3600 || flt hi 3358 || fgt hi 3600 = false.
Proof.
  unfold in_band, flt, fgt. intros [L1 L2] [H1 H2].
  now rewrite (leb_ltb_false _ _ L1), (leb_ltb_false _ _ L2),
    (leb_ltb_false _ _ H1), (leb_ltb_false _ _ H2).
Qed.

Lemma not_out_in_band (lo hi : float) :
  is_nan lo = false -> is_nan hi = false ->
  flt lo 3358 || fgt lo 3600 || flt hi 3358 || fgt hi 3600 = false ->
  in_band lo /\ in_band hi.
Proof.
  unfold in_band, flt, fgt. intros Nl Nh H.
  apply orb_false_iff in H. destruct H as [H H4].
  apply orb_false_iff in H. destruct H as [H H3].
  apply orb_false_iff in H. destruct H as [H1 H2].
  repeat split; apply not_ltb_leb; auto.
Qed.

Lemma separated_not_close (lo hi : float) :
  separated lo hi -> flt (hi - lo) 1 = false.
Proof. unfold separated, flt. apply leb_ltb_false. Qed.

Lemma not_close_separated (lo hi : float) :
  is_nan (hi - lo) = false -> flt (hi - lo) 1 = false -> separated lo hi.
Proof.
  unfold separated, flt. intros N H. apply not_ltb_leb; auto.
Qed.

Lemma valid_checks_false params :
  valid_frequencies params ->
  OtaLab.ul_out_of_band params = false /\
  OtaLab.ul_too_close params = false /\
  OtaLab.dl_out_of_band params = false /\
  OtaLab.dl_too_close params = false.
Proof.
  intros (U1 & U2 & US & D1 & D2 & DS). repeat split.
  - now apply in_band_not_out.
  - now apply separated_not_close.
  - now apply in_band_not_out.
  - now apply separated_not_close.
Qed.

Lemma violations_nil_iff params :
  violations params = [] <->
  OtaLab.ul_out_of_band params = false /\
  OtaLab.ul_too_close params = false /\
  OtaLab.dl_out_of_band params = false /\
  OtaLab.dl_too_close params = false.
Proof.
  unfold violations.
  destruct (OtaLab.ul_out_of_band params), (OtaLab.ul_too_close params),
    (OtaLab.dl_out_of_band params), (OtaLab.dl_too_close params);
    simpl; split; intros H; try discriminate; try tauto;
    repeat match goal with H : _ /\ _ |- _ => destruct H end; discriminate.
Qed.

Lemma check_frequency_parameters_reports params c :
  OtaLab.check_frequency_parameters params c =
  Done tt (mkContext (parameterErrors c ++ violations params)
             (request c) (printed c)).
Proof.
  unfold OtaLab.check_frequency_parameters, violations.
  destruct c as [errs r pr].
  destruct (OtaLab.ul_out_of_band params), (OtaLab.ul_too_close params),
    (OtaLab.dl_out_of_band params), (OtaLab.dl_too_close params);
    cbv [when bind ret reportError];
    cbn [parameterErrors request printed app];
    rewrite <- ?app_assoc, ?app_nil_r; reflexivity.
Qed.

Lemma violations_nil params :
  valid_frequencies params -> violations params = [].
Proof.
  intros Hv. apply violations_nil_iff. now apply valid_checks_false.
Qed.

Lemma otalab_main params c :
  OtaLab.main params c =
  match (parameterErrors c ++ violations params)%list with
  | [] => Done tt (mkContext []
                     (Some (otalab_request params))
                     (Some (otalab_request params)))
  | e :: errs => Exit (mkContext (e :: errs) (request c) (printed c))
  end.
Proof.
  unfold OtaLab.main, bind at 1.
  rewrite check_frequency_parameters_reports.
  unfold bind, verifyParameters. cbn [parameterErrors].
  destruct (parameterErrors c ++ violations params)%list eqn:E.
  - rewrite otalab_request_resources. reflexivity.
  - reflexivity.
Qed.

Lemma otalab_pairing_builds params radios c :
  builds (otalab_pairing params radios) c
    (built_all (otalab_x310_built params) 0 0 radios).
Proof.
  unfold builds, otalab_pairing, bind, makeRequestRSpec.
  now rewrite (for_enumerate_appends _ _
                 (otalab_x310_node_pair_appends params)).
Qed.

Lemma general_pairing_builds params radios c :
  builds (general_pairing params radios) c
    (built_all (general_x310_built params) 0 0 radios).
Proof.
  unfold builds, general_pairing, bind, makeRequestRSpec.
  now rewrite (for_enumerate_appends _ _
                 (general_x310_node_pair_appends params)).
Qed.

Lemma otalab_run_valid params :
  valid_frequencies params ->
  OtaLab.run params = Emitted (otalab_request params).
Proof.
  intros Hv. apply violations_nil in Hv.
  unfold OtaLab.run. rewrite otalab_main. simpl. now rewrite Hv.
Qed.

(** ** Validation of the frequency parameters (OTA-lab profile) *)

(** Decides a closed comparison of floats. *)
Ltac Fcmp := vm_compute; reflexivity.

(** C2: whenever the four frequencies lie within [3358, 3600] and each
    maximum exceeds its minimum by at least 1, no parameter error is
    reported, and the request is built and emitted: the run ends normally
    and prints the request that holds, in selection order, the three
    resources of every X310 selection, the node of every B210 selection and
    the two spectrum reservations. *)
Theorem valid_frequencies_are_accepted (params : OtaLab.Params) :
  valid_frequencies params ->
  OtaLab.check_frequency_parameters params fresh = Done tt fresh /\
  OtaLab.main params fresh =
    Done tt (mkContext [] (Some (otalab_request params))
               (Some (otalab_request params))) /\
  OtaLab.run params = Emitted (otalab_request params) /\
  length (resources (otalab_request params)) =
    3 * length (OtaLab.x310_radios params)
    + length (OtaLab.b210_nodes params) /\
  spectrum (otalab_request params) =
    [ (OtaLab.ul_freq_min params, OtaLab.ul_freq_max params, 0%Z);
      (OtaLab.dl_freq_min params, OtaLab.dl_freq_max params, 0%Z) ].
Proof.
  intros Hv. pose proof (otalab_run_valid params Hv) as Hrun.
  apply violations_nil in Hv. split; [|split; [|split; [|split]]].
  - rewrite check_frequency_parameters_reports, Hv. reflexivity.
  - rewrite otalab_main, Hv. reflexivity.
  - exact Hrun.
  - unfold otalab_request. cbn [resources].
    rewrite length_app, (length_built_all _ 3), (length_built_all _ 1)
      by reflexivity.
    lia.
  - reflexivity.
Qed.

Lemma valid_frequencies_are_accepted_witness :
  OtaLab.run (lab_defaults 3550 3570 3580 3600)
  = Emitted (otalab_request (lab_defaults 3550 3570 3580 3600)) /\
  length (resources (otalab_request (lab_defaults 3550 3570 3580 3600)))
  = 3 * 1 + 1.
Proof.
  assert (valid_frequencies (lab_defaults 3550 3570 3580 3600)) as Hv.
  { unfold valid_frequencies, in_band, separated. repeat split; Fcmp. }
  destruct (valid_frequencies_are_accepted _ Hv) as (_ & _ & Hrun & Hlen & _).
  split; [exact Hrun | exact Hlen].
Defined.

(** C9, as the specification states it, fails: a bound exactly equal to 3358
    does not make a parameter set pass. With both uplink bounds at 3358 the
    separation check reports its error and the run is rejected. *)
Lemma bound_on_the_edge_is_rejected :
  OtaLab.ul_freq_min (lab_defaults 3358 3358 3580 3600) = 3358%float /\
  OtaLab.run (lab_defaults 3358 3358 3580 3600)
  = Rejected
      [ mkParameterError
          "Minimum and maximum frequencies must be separated by at least 1 MHz"
          ["ul_freq_min"; "ul_freq_max"] ] /\
  ~ exists r, OtaLab.run (lab_defaults 3358 3358 3580 3600) = Emitted r.
Proof.
  assert (OtaLab.run (lab_defaults 3358 3358 3580 3600)
          = Rejected [OtaLab.perr_ul_sep]) as H by Fcmp.
  split; [reflexivity|]. split; [exact H|].
  intros [r Hr]. rewrite H in Hr. discriminate.
Qed.

Lemma edge_in_band (f : float) : at_or_within_band_edges f -> in_band f.
Proof.
  intros [E|[E|[L H]]]; unfold in_band.
  - rewrite E. split; Fcmp.
  - rewrite E. split; Fcmp.
  - split; now apply ltb_leb.
Qed.

Lemma apart_separated (lo hi : float) :
  one_MHz_or_more_apart lo hi -> separated lo hi.
Proof.
  intros [E|L]; unfold separated.
  - rewrite E. Fcmp.
  - now apply ltb_leb.
Qed.

(** C9, amended: every check is inclusive at its own boundary. Bounds equal
    to 3358 or to 3600 (or strictly between) never trip the band check of
    their pair, in either position and whatever the separation; a difference
    equal to 1 (or larger) never trips the separation check, whatever the
    band; and a parameter set all of whose bounds and differences are such
    passes validation with no error reported and is emitted. *)
Theorem boundaries_are_inclusive (params : OtaLab.Params) :
  (at_or_within_band_edges (OtaLab.ul_freq_min params) ->
   at_or_within_band_edges (OtaLab.ul_freq_max params) ->
   OtaLab.ul_out_of_band params = false) /\
  (at_or_within_band_edges (OtaLab.dl_freq_min params) ->
   at_or_within_band_edges (OtaLab.dl_freq_max params) ->
   OtaLab.dl_out_of_band params = false) /\
  (one_MHz_or_more_apart (OtaLab.ul_freq_min params)
                         (OtaLab.ul_freq_max params) ->
   OtaLab.ul_too_close params = false) /\
  (one_MHz_or_more_apart (OtaLab.dl_freq_min params)
                         (OtaLab.dl_freq_max params) ->
   OtaLab.dl_too_close params = false) /\
  (at_or_within_band_edges (OtaLab.ul_freq_min params) ->
   at_or_within_band_edges (OtaLab.ul_freq_max params) ->
   at_or_within_band_edges (OtaLab.dl_freq_min params) ->
   at_or_within_band_edges (OtaLab.dl_freq_max params) ->
   one_MHz_or_more_apart (OtaLab.ul_freq_min params)
                         (OtaLab.ul_freq_max params) ->
   one_MHz_or_more_apart (OtaLab.dl_freq_min params)
                         (OtaLab.dl_freq_max params) ->
   OtaLab.check_frequency_parameters params fresh = Done tt fresh /\
   OtaLab.run params = Emitted (otalab_request params)).
Proof.
  split; [|split; [|split; [|split]]].
  - intros U1 U2. apply in_band_not_out; now apply edge_in_band.
  - intros D1 D2. apply in_band_not_out; now apply edge_in_band.
  - intros US. now apply separated_not_close, apart_separated.
  - intros DS. now apply separated_not_close, apart_separated.
  - intros U1 U2 D1 D2 US DS.
    assert (valid_frequencies params) as Hv.
    { unfold valid_frequencies.
      repeat split; first [now apply edge_in_band | now apply apart_separated]. }
    split; [|now apply otalab_run_valid].
    rewrite check_frequency_parameters_reports, (violations_nil _ Hv).
    reflexivity.
Qed.

Lemma boundaries_are_inclusive_witness :
  OtaLab.ul_out_of_band (lab_defaults 3600 3358 3599 3600) = false /\
  OtaLab.dl_too_close (lab_defaults 3600 3358 3599 3600) = false /\
  OtaLab.run (lab_defaults 3358 3359 3599 3600)
  = Emitted (otalab_request (lab_defaults 3358 3359 3599 3600)).
Proof.
  split; [|split].
  - apply (proj1 (boundaries_are_inclusive
                    (lab_defaults 3600 3358 3599 3600)));
      unfold at_or_within_band_edges; simpl.
    + right; left. reflexivity.
    + left. reflexivity.
  - apply (proj1 (proj2 (proj2 (proj2 (boundaries_are_inclusive
                    (lab_defaults 3600 3358 3599 3600)))))).
    unfold one_MHz_or_more_apart; simpl. left. Fcmp.
  - refine (proj2 (proj2 (proj2 (proj2 (proj2 (boundaries_are_inclusive
                     (lab_defaults 3358 3359 3599 3600)))))
                    _ _ _ _ _ _));
      unfold at_or_within_band_edges, one_MHz_or_more_apart; simpl.
    + left. reflexivity.
    + right; right. split; Fcmp.
    + right; right. split; Fcmp.
    + right; left. reflexivity.
    + left. Fcmp.
    + left. Fcmp.
Defined.










(** C4 fails on the code for a frequency that is NaN. NaN does not lie
    within 3358..3600, but every comparison with NaN is False, so none of the
    four checks reports anything: the run passes [verifyParameters], builds
    the request and prints it with the reservation (nan, 3570, 0). *)
Theorem nan_frequency_is_emitted :
  ~ in_band nan /\
  OtaLab.check_frequency_parameters (lab_defaults nan 3570 3580 3600) fresh
  = Done tt fresh /\
  OtaLab.run (lab_defaults nan 3570 3580 3600)
  = Emitted (otalab_request (lab_defaults nan 3570 3580 3600)) /\
  spectrum (otalab_request (lab_defaults nan 3570 3580 3600))
  = [ (nan, 3570%float, 0%Z); (3580%float, 3600%float, 0%Z) ] /\
  length (resources (otalab_request (lab_defaults nan 3570 3580 3600))) = 4.
Proof.
  split; [|split; [|split; [|split]]].
  - unfold in_band. intros [H _]. vm_compute in H. discriminate.
  - Fcmp.
  - Fcmp.
  - reflexivity.
  - reflexivity.
Qed.

(** ** End-to-end: one selection of each kind (OTA-lab profile) *)

(** C1, as the specification states it, fails: 2500..2510 and 2620..2630 lie
    outside the band the profile accepts, so the run stops with the two
    out-of-band errors and emits no request. *)
Lemma scenario_2500_is_rejected :
  OtaLab.run (lab_defaults 2500 2510 2620 2630)
  = Rejected
      [ mkParameterError
          "CBAND uplink frequencies must be between 3358 and 3600 MHz"
          ["ul_freq_min"; "ul_freq_max"];
        mkParameterError
          "CBAND downlink frequencies must be between 3358 and 3600 MHz"
          ["dl_freq_min"; "dl_freq_max"] ] /\
  ~ exists r,
      OtaLab.run (lab_defaults 2500 2510 2620 2630) = Emitted r /\
      spectrum r = [ (2500%float, 2510%float, 0%Z); (2620%float, 2630%float, 0%Z) ].
Proof.
  assert (OtaLab.run (lab_defaults 2500 2510 2620 2630)
          = Rejected [OtaLab.perr_ul_band; OtaLab.perr_dl_band]) as H
    by (vm_compute; reflexivity).
  split.
  - exact H.
  - intros (r & Hr & _). rewrite H in Hr. discriminate.
Qed.

(** C1, amended: with frequencies that pass validation, one base-station
    selection and one fixed-endpoint selection, the emitted request holds one
    base-station triple (link, node, radio component), one fixed-endpoint
    node, and exactly the two reservations (ul_min, ul_max, 0) and
    (dl_min, dl_max, 0). *)
Theorem one_selection_of_each_kind
  (nodetype : string) (x310_radio : OtaLab.X310Radio)
  (b210_node : OtaLab.B210Node) (ul_min ul_max dl_min dl_max : float) :
  valid_frequencies
    (OtaLab.mkParams nodetype [x310_radio] [b210_node]
       ul_min ul_max dl_min dl_max) ->
  exists l n rd b,
    OtaLab.run (OtaLab.mkParams nodetype [x310_radio] [b210_node]
                  ul_min ul_max dl_min dl_max)
    = Emitted {| resources := [RLink l; RNode n; RNode rd; RNode b];
                 spectrum := [ (ul_min, ul_max, 0%Z);
                               (dl_min, dl_max, 0%Z) ] |} /\
    triple_at [RLink l; RNode n; RNode rd; RNode b] 0
      (OtaLab.radio_name x310_radio) /\
    client_id n = OtaLab.radio_name x310_radio ++ "-comp" /\
    client_id b = OtaLab.node_id b210_node ++ "-b210" /\
    is_resource_node (RNode b) = true.
Proof.
  intros Hv. rewrite (otalab_run_valid _ Hv).
  unfold otalab_request. cbn [OtaLab.x310_radios OtaLab.b210_nodes
    OtaLab.ul_freq_min OtaLab.ul_freq_max OtaLab.dl_freq_min
    OtaLab.dl_freq_max built_all otalab_x310_built otalab_b210_built app].
  do 4 eexists. split; [reflexivity|]. split; [|repeat split].
  unfold triple_at. do 3 eexists.
  repeat split; try reflexivity.
  eexists. left. reflexivity.
Qed.

Lemma one_selection_of_each_kind_witness :
  exists l n rd b,
    OtaLab.run (lab_defaults 3550 3570 3580 3600)
    = Emitted {| resources := [RLink l; RNode n; RNode rd; RNode b];
                 spectrum := [ (3550%float, 3570%float, 0%Z);
                               (3580%float, 3600%float, 0%Z) ] |} /\
    triple_at [RLink l; RNode n; RNode rd; RNode b] 0 "ota-x310-1" /\
    client_id n = "ota-x310-1-comp" /\
    client_id b = "ota-nuc1-b210" /\
    is_resource_node (RNode b) = true.
Proof.
  apply (one_selection_of_each_kind "d430" (OtaLab.mkX310Radio "ota-x310-1")
           (OtaLab.mkB210Node "ota-nuc1") 3550 3570 3580 3600).
  unfold valid_frequencies, in_band, separated. simpl.
  repeat split; Fcmp.
Defined.

(** ** The base-station pairing builder (both profiles) *)

Section Triples.
Context {A : Type}.
Variable built : nat -> handle -> A -> list Resource.
Variable name_of : A -> string.
Hypothesis built_width : forall idx base x, length (built idx base x) = 3.
Hypothesis built_triple :
  forall idx base x,
    exists l n rd,
      built idx base x = [RLink l; RNode n; RNode rd] /\
      is_resource_node (RNode n) = true /\
      is_radio_component (RNode rd) = true /\
      component_id rd = Some (name_of x) /\
      (exists addrs, In (mkInterface "usrp_if" addrs) (interfaces n)) /\
      members l = [ViaInterface (base + 1) "usrp_if"; ViaNode (base + 2)].

Lemma built_all_triple_at (l : list A) (k : nat) (name : string) :
  nth_error (map name_of l) k = Some name ->
  triple_at (built_all built 0 0 l) k name.
Proof.
  intros Hk. rewrite nth_error_map in Hk.
  destruct (nth_error l k) as [x|] eqn:Hx; [|discriminate].
  injection Hk as <-.
  destruct (built_triple k (3 * k) x)
    as (lk & n & rd & Hb & Hn & Hrd & Hid & Hif & Hm).
  exists lk, n, rd.
  assert (Hnth : forall j, j < 3 ->
            nth_error (built_all built 0 0 l) (3 * k + j)
            = nth_error [RLink lk; RNode n; RNode rd] j).
  { intros j Hj.
    rewrite (nth_error_built_all built 3 built_width l 0 0 k x j Hx Hj).
    rewrite !Nat.add_0_l. now rewrite Hb. }
  repeat split; auto.
  rewrite <- (Nat.add_0_r (3 * k)). now rewrite Hnth by lia.
Qed.

Lemma built_all_counts (l : list A) :
  length (filter is_link (built_all built 0 0 l)) = length l /\
  length (filter is_resource_node (built_all built 0 0 l)) = length l /\
  length (filter is_radio_component (built_all built 0 0 l)) = length l.
Proof.
  repeat split;
    rewrite (count_built_all built _ 1); try lia;
    intros idx base x;
    destruct (built_triple idx base x)
      as (lk & n & rd & -> & Hn & Hrd & _);
    simpl in Hn, Hrd |- *;
    destruct (disk_image n), (disk_image rd), (component_id rd);
    try discriminate; reflexivity.
Qed.

End Triples.

Lemma otalab_x310_built_triple params idx base x :
  exists l n rd,
    otalab_x310_built params idx base x = [RLink l; RNode n; RNode rd] /\
    is_resource_node (RNode n) = true /\
    is_radio_component (RNode rd) = true /\
    component_id rd = Some (OtaLab.radio_name x) /\
    (exists addrs, In (mkInterface "usrp_if" addrs) (interfaces n)) /\
    members l = [ViaInterface (base + 1) "usrp_if"; ViaNode (base + 2)].
Proof.
  unfold otalab_x310_built. do 3 eexists.
  split; [reflexivity|]. repeat split.
  eexists. left. reflexivity.
Qed.

Lemma general_x310_built_triple params idx base x :
  exists l n rd,
    general_x310_built params idx base x = [RLink l; RNode n; RNode rd] /\
    is_resource_node (RNode n) = true /\
    is_radio_component (RNode rd) = true /\
    component_id rd = Some (General.radio_name x) /\
    (exists addrs, In (mkInterface "usrp_if" addrs) (interfaces n)) /\
    members l = [ViaInterface (base + 1) "usrp_if"; ViaNode (base + 2)].
Proof.
  unfold general_x310_built. do 3 eexists.
  split; [reflexivity|]. repeat split.
  eexists. left. reflexivity.
Qed.

(** C5: for any list of N base-station selections the pairing builder of
    either profile leaves exactly N links, N resource nodes and N radio
    components in the request, one triple per selection in the order of the
    list; the link of each triple has exactly two members, the interface
    "usrp_if" of the node of that triple and the radio component of that
    triple. *)
Theorem pairing_builder_makes_triples (c : Context) :
  (forall (params : OtaLab.Params) (radios : list OtaLab.X310Radio),
     exists res,
       builds (otalab_pairing params radios) c res /\
       length res = 3 * length radios /\
       length (filter is_link res) = length radios /\
       length (filter is_resource_node res) = length radios /\
       length (filter is_radio_component res) = length radios /\
       forall k name,
         nth_error (map OtaLab.radio_name radios) k = Some name ->
         triple_at res k name) /\
  (forall (params : General.Params) (radios : list General.X310Radio),
     exists res,
       builds (general_pairing params radios) c res /\
       length res = 3 * length radios /\
       length (filter is_link res) = length radios /\
       length (filter is_resource_node res) = length radios /\
       length (filter is_radio_component res) = length radios /\
       forall k name,
         nth_error (map General.radio_name radios) k = Some name ->
         triple_at res k name).
Proof.
  split; intros params radios.
  - exists (built_all (otalab_x310_built params) 0 0 radios).
    split; [apply otalab_pairing_builds|].
    split; [now apply length_built_all|].
    destruct (built_all_counts _ _ (otalab_x310_built_triple params) radios)
      as (H1 & H2 & H3).
    repeat split; auto.
    intros k name. apply built_all_triple_at; [reflexivity|].
    apply otalab_x310_built_triple.
  - exists (built_all (general_x310_built params) 0 0 radios).
    split; [apply general_pairing_builds|].
    split; [now apply length_built_all|].
    destruct (built_all_counts _ _ (general_x310_built_triple params) radios)
      as (H1 & H2 & H3).
    repeat split; auto.
    intros k name. apply built_all_triple_at; [reflexivity|].
    apply general_x310_built_triple.
Qed.

(** C6: in either profile, the node built for the [k]-th base-station
    selection is named after the selected radio with the suffix "-comp", and
    its only interface, "usrp_if", carries the one address 192.168.40.1 with
    netmask 255.255.255.0, whichever radios were selected and however many. *)
Theorem comp_node_name_and_address (c : Context) :
  (forall (params : OtaLab.Params) (radios : list OtaLab.X310Radio)
          (k : nat) (x310_radio : OtaLab.X310Radio),
     nth_error radios k = Some x310_radio ->
     exists res n,
       builds (otalab_pairing params radios) c res /\
       nth_error res (3 * k + 1) = Some (RNode n) /\
       client_id n = OtaLab.radio_name x310_radio ++ "-comp" /\
       interfaces n =
         [ mkInterface "usrp_if"
             [mkIPv4Address "192.168.40.1" "255.255.255.0"] ]) /\
  (forall (params : General.Params) (radios : list General.X310Radio)
          (k : nat) (x310_radio : General.X310Radio),
     nth_error radios k = Some x310_radio ->
     exists res n,
       builds (general_pairing params radios) c res /\
       nth_error res (3 * k + 1) = Some (RNode n) /\
       client_id n = General.radio_name x310_radio ++ "-comp" /\
       interfaces n =
         [ mkInterface "usrp_if"
             [mkIPv4Address "192.168.40.1" "255.255.255.0"] ]).
Proof.
  split; intros params radios k x310_radio Hk.
  - eexists. eexists. split; [apply otalab_pairing_builds|].
    rewrite (nth_error_built_all (otalab_x310_built params) 3
               (fun _ _ _ => eq_refl) radios 0 0 k x310_radio 1 Hk) by lia.
    split; [reflexivity|]. split; reflexivity.
  - eexists. eexists. split; [apply general_pairing_builds|].
    rewrite (nth_error_built_all (general_x310_built params) 3
               (fun _ _ _ => eq_refl) radios 0 0 k x310_radio 1 Hk) by lia.
    split; [reflexivity|]. split; reflexivity.
Qed.

Lemma comp_node_name_and_address_witness :
  exists res n,
    builds (otalab_pairing (lab_defaults 3550 3570 3580 3600)
              [OtaLab.mkX310Radio "ota-x310-1"; OtaLab.mkX310Radio "ota-x310-3"])
           fresh res /\
    nth_error res (3 * 1 + 1) = Some (RNode n) /\
    client_id n = "ota-x310-3-comp" /\
    interfaces n =
      [ mkInterface "usrp_if" [mkIPv4Address "192.168.40.1" "255.255.255.0"] ].
Proof.
  apply (proj1 (comp_node_name_and_address fresh)
           (lab_defaults 3550 3570 3580 3600)
           [OtaLab.mkX310Radio "ota-x310-1"; OtaLab.mkX310Radio "ota-x310-3"]
           1 (OtaLab.mkX310Radio "ota-x310-3")).
  reflexivity.
Defined.

(** C7, as the specification states it, fails: the attribute is a number of
    kb/s, and the link of a base-station pair carries the number 10,000,000,
    which is 10 Gb/s (10,000,000,000 bit/s) and not 10 Mb/s
    (10,000,000 bit/s). *)
Lemma radio_link_is_not_10_Mbps :
  exists l,
    nth_error (resources (otalab_request (lab_defaults 3550 3570 3580 3600))) 0
    = Some (RLink l) /\
    OtaLab.run (lab_defaults 3550 3570 3580 3600)
    = Emitted (otalab_request (lab_defaults 3550 3570 3580 3600)) /\
    option_map bits_per_second (bandwidth l) = Some 10000000000%Z /\
    option_map bits_per_second (bandwidth l) <> Some (10 * 1000 * 1000)%Z.
Proof.
  eexists. split; [reflexivity|]. split; [Fcmp|]. split.
  - reflexivity.
  - discriminate.
Qed.

(** C7, amended: in either profile every radio link the pairing builder
    creates has the bandwidth attribute 10 * 1000 * 1000 = 10,000,000,
    whatever the selected radios and the other parameters are, and there is
    one such link per selection. The library counts the attribute in kb/s,
    so the link has 10 Gb/s. *)
Theorem radio_link_bandwidth_is_fixed (c : Context) :
  (forall (params : OtaLab.Params) (radios : list OtaLab.X310Radio),
     exists res,
       builds (otalab_pairing params radios) c res /\
       length (filter is_link res) = length radios /\
       forall l,
         In (RLink l) res ->
         bandwidth l = Some 10000000%Z /\
         option_map bits_per_second (bandwidth l)
         = Some (10 * 1000 * 1000 * 1000)%Z) /\
  (forall (params : General.Params) (radios : list General.X310Radio),
     exists res,
       builds (general_pairing params radios) c res /\
       length (filter is_link res) = length radios /\
       forall l,
         In (RLink l) res ->
         bandwidth l = Some 10000000%Z /\
         option_map bits_per_second (bandwidth l)
         = Some (10 * 1000 * 1000 * 1000)%Z).
Proof.
  split; intros params radios.
  - eexists. split; [apply otalab_pairing_builds|]. split.
    + apply (built_all_counts _ _ (otalab_x310_built_triple params)).
    + intros l Hl. apply in_built_all in Hl.
      destruct Hl as (idx & base & x & _ & Hl).
      unfold otalab_x310_built in Hl. simpl in Hl.
      destruct Hl as [Hl|[Hl|[Hl|[]]]]; try discriminate.
      injection Hl as <-. split; reflexivity.
  - eexists. split; [apply general_pairing_builds|]. split.
    + apply (built_all_counts _ _ (general_x310_built_triple params)).
    + intros l Hl. apply in_built_all in Hl.
      destruct Hl as (idx & base & x & _ & Hl).
      unfold general_x310_built in Hl. simpl in Hl.
      destruct Hl as [Hl|[Hl|[Hl|[]]]]; try discriminate.
      injection Hl as <-. split; reflexivity.
Qed.

(** ** The boot command of the general profile *)

Lemma general_run params :
  General.run params = Emitted (general_request params).
Proof. unfold General.run. now rewrite general_main. Qed.

Lemma general_resource_nodes params (n : RawPC) :
  In (RNode n) (resources (general_request params)) ->
  is_resource_node (RNode n) = true ->
  exists before,
    services n =
    (before ++
     [ mkExecute "bash"
         ("/local/repository/bin/setup.sh " ++ General.token params ++ " "
            ++ General.user params ++ " " ++ General.password params) ])%list.
Proof.
  intros Hin Hn. simpl in Hin. apply in_app_or in Hin.
  destruct Hin as [Hin|Hin]; apply in_built_all in Hin;
    destruct Hin as (idx & base & x & _ & Hin).
  - unfold general_x310_built in Hin. simpl in Hin.
    destruct Hin as [Hin|[Hin|[Hin|[]]]]; try discriminate.
    + injection Hin as <-. eexists [_; _; _; _]. reflexivity.
    + injection Hin as <-. discriminate.
  - unfold general_b210_built in Hin. simpl in Hin.
    destruct Hin as [Hin|[]].
    injection Hin as <-. eexists [_; _]. reflexivity.
Qed.

(** C10: in the general profile every node with a disk image, the compute
    node of each base-station pair and each fixed-endpoint node, ends its
    boot services with the command made of "/local/repository/bin/setup.sh "
    followed by the token, user and password values as they are, separated by
    single spaces; with the three values empty the command is the script path
    followed by three spaces. *)
Theorem setup_command_takes_values_verbatim (params : General.Params) :
  exists r,
    General.run params = Emitted r /\
    length (filter is_resource_node (resources r))
    = length (General.x310_radios params)
      + length (General.b210_nodes params) /\
    (forall n,
       In (RNode n) (resources r) ->
       is_resource_node (RNode n) = true ->
       exists before,
         services n =
         (before ++
          [ mkExecute "bash"
              ("/local/repository/bin/setup.sh " ++ General.token params
                 ++ " " ++ General.user params ++ " "
                 ++ General.password params) ])%list) /\
    (General.token params = "" ->
     General.user params = "" ->
     General.password params = "" ->
     forall n,
       In (RNode n) (resources r) ->
       is_resource_node (RNode n) = true ->
       exists before,
         services n =
         (before ++
          [ mkExecute "bash" "/local/repository/bin/setup.sh   " ])%list).
Proof.
  exists (general_request params).
  split; [apply general_run|]. split; [|split].
  - simpl. rewrite filter_app, length_app. f_equal.
    + apply (built_all_counts _ _ (general_x310_built_triple params)).
    + rewrite (count_built_all (general_b210_built params)
                 is_resource_node 1); [lia|reflexivity].
  - apply general_resource_nodes.
  - intros Ht Hu Hp n Hin Hn.
    destruct (general_resource_nodes params n Hin Hn) as [before Hs].
    exists before. rewrite Hs, Ht, Hu, Hp. reflexivity.
Qed.

(** ** Strings: suffixes and decimal indices *)

Lemma chars_append (a b : string) :
  list_ascii_of_string (a ++ b) =
  (list_ascii_of_string a ++ list_ascii_of_string b)%list.
Proof.
  induction a as [|ch a IH]; simpl; [reflexivity | now rewrite IH].
Qed.

Lemma chars_inj (a b : string) :
  list_ascii_of_string a = list_ascii_of_string b -> a = b.
Proof.
  intros H. rewrite <- (string_of_list_ascii_of_string a),
    <- (string_of_list_ascii_of_string b). now rewrite H.
Qed.

Lemma append_inv_tail (s a b : string) : a ++ s = b ++ s -> a = b.
Proof.
  intros H. apply chars_inj.
  apply (f_equal list_ascii_of_string) in H. rewrite !chars_append in H.
  now apply app_inv_tail in H.
Qed.

Lemma last_char_append (a s : string) (ch : ascii) :
  last_char (a ++ s ++ String ch "") = ch.
Proof.
  unfold last_char. rewrite !chars_append, app_assoc. simpl.
  apply last_last.
Qed.

Lemma fmt_d_inj (m n : nat) : fmt_d m = fmt_d n -> m = n.
Proof.
  unfold fmt_d. intros H.
  apply (f_equal NilEmpty.uint_of_string) in H.
  rewrite !NilEmpty.usu in H. injection H as H.
  apply (f_equal Nat.of_uint) in H.
  now rewrite !Unsigned.of_to in H.
Qed.

(** ** Lists without repetition *)

Section Pairs.
Variables f1 f2 : string -> string.
Hypothesis f1_inj : forall a b, f1 a = f1 b -> a = b.
Hypothesis f2_inj : forall a b, f2 a = f2 b -> a = b.
Hypothesis f1_f2 : forall a b, f1 a <> f2 b.

Lemma NoDup_pairs (l : list string) :
  NoDup (flat_map (fun s => [f1 s; f2 s]) l) <-> NoDup l.
Proof.
  induction l as [|a l IH]; simpl.
  - split; constructor.
  - rewrite !NoDup_cons_iff, IH. simpl. rewrite !in_flat_map. split.
    + intros (_ & H2 & Hl). split; [|exact Hl].
      intros Ha. apply H2. exists a. split; [exact Ha|]. right; now left.
    + intros (Ha & Hl). repeat split; auto.
      * intros [E|(s & Hs & [E|[E|[]]])].
        -- now apply (f1_f2 a a).
        -- apply f1_inj in E. now subst.
        -- now apply (f1_f2 a s).
      * intros (s & Hs & [E|[E|[]]]).
        -- now apply (f1_f2 s a).
        -- apply f2_inj in E. now subst.
Qed.

Lemma in_pairs (l : list string) (y : string) :
  In y (flat_map (fun s => [f1 s; f2 s]) l) ->
  exists s, y = f1 s \/ y = f2 s.
Proof.
  rewrite in_flat_map. intros (s & _ & [E|[E|[]]]); exists s; auto.
Qed.

End Pairs.

Lemma NoDup_map_inj {A B} (f : A -> B) (l : list A) :
  (forall a b, f a = f b -> a = b) -> (NoDup (map f l) <-> NoDup l).
Proof.
  intros Hf. split; [apply NoDup_map_inv|].
  intros Hl. apply NoDup_map_NoDup_ForallPairs; [|exact Hl].
  intros a b _ _. apply Hf.
Qed.

Lemma NoDup_app_iff {A} (l1 l2 : list A) :
  (forall a, In a l1 -> ~ In a l2) ->
  (NoDup (l1 ++ l2) <-> NoDup l1 /\ NoDup l2).
Proof.
  intros Hd. split.
  - intros H. split; [eapply NoDup_app_remove_r | eapply NoDup_app_remove_l];
      exact H.
  - intros [H1 H2]. now apply NoDup_app.
Qed.

(** ** Where the loops put what they build *)

Section Positions.
Context {A : Type}.
Variable built : nat -> handle -> A -> list Resource.
Variable w : nat.
Hypothesis built_width : forall idx base x, length (built idx base x) = w.

Lemma in_built_all_at (l : list A) :
  forall idx base r,
    In r (built_all built idx base l) ->
    exists k x,
      nth_error l k = Some x /\ In r (built (idx + k) (base + w * k) x).
Proof.
  induction l as [|y l IH]; intros idx base r Hr; simpl in Hr.
  - contradiction.
  - apply in_app_or in Hr. destruct Hr as [Hr|Hr].
    + exists 0, y. split; [reflexivity|].
      now rewrite Nat.mul_0_r, !Nat.add_0_r.
    + rewrite built_width in Hr.
      destruct (IH _ _ _ Hr) as (k & x & Hk & Hin).
      exists (S k), x. split; [exact Hk|].
      replace (idx + S k) with (S idx + k) by lia.
      replace (base + w * S k) with (base + w + w * k) by lia.
      exact Hin.
Qed.

Lemma flat_map_built_all {B} (f : Resource -> list B) (g : A -> list B)
  (l : list A) :
  (forall idx base x, flat_map f (built idx base x) = g x) ->
  forall idx base, flat_map f (built_all built idx base l) = flat_map g l.
Proof.
  intros Hg. induction l as [|x l IH]; intros idx base; simpl.
  - reflexivity.
  - now rewrite flat_map_app, Hg, IH.
Qed.

Lemma flat_map_built_all_idx {B} (f : Resource -> list B) (h : nat -> B)
  (l : list A) :
  (forall idx base x, flat_map f (built idx base x) = [h idx]) ->
  forall idx base,
    flat_map f (built_all built idx base l) = map h (seq idx (length l)).
Proof.
  intros Hh. induction l as [|x l IH]; intros idx base; simpl.
  - reflexivity.
  - now rewrite flat_map_app, Hh, IH.
Qed.

Lemma nth_error_front (l : list A) (rest : list Resource) k x j :
  nth_error l k = Some x -> j < w ->
  nth_error (built_all built 0 0 l ++ rest) (w * k + j) =
  nth_error (built k (w * k) x) j.
Proof.
  intros Hk Hj.
  assert (k < length l) by (apply nth_error_Some; congruence).
  rewrite nth_error_app1 by (rewrite (length_built_all built w); auto; nia).
  now rewrite (nth_error_built_all built w built_width l 0 0 k x j Hk Hj).
Qed.

Lemma nth_error_back (front : list Resource) (l : list A) base k x j :
  nth_error l k = Some x -> j < w ->
  nth_error (front ++ built_all built 0 base l) (length front + (w * k + j)) =
  nth_error (built k (base + w * k) x) j.
Proof.
  intros Hk Hj.
  rewrite nth_error_app2 by lia.
  replace (length front + (w * k + j) - length front) with (w * k + j) by lia.
  now rewrite (nth_error_built_all built w built_width l 0 base k x j Hk Hj).
Qed.

End Positions.

Lemma otalab_run_emitted params r :
  OtaLab.run params = Emitted r ->
  violations params = [] /\ r = otalab_request params.
Proof.
  unfold OtaLab.run. rewrite otalab_main. simpl.
  destruct (violations params) eqn:E; simpl; intros H.
  - split; [reflexivity | congruence].
  - discriminate.
Qed.

Lemma otalab_run_rejected params errs :
  OtaLab.run params = Rejected errs ->
  errs = violations params /\ errs <> [].
Proof.
  unfold OtaLab.run. rewrite otalab_main. simpl.
  destruct (violations params) eqn:E; simpl; intros H.
  - discriminate.
  - injection H as <-. split; [reflexivity | discriminate].
Qed.

Lemma otalab_front_length params :
  length (built_all (otalab_x310_built params) 0 0 (OtaLab.x310_radios params))
  = 3 * length (OtaLab.x310_radios params).
Proof. now apply length_built_all. Qed.

Lemma general_front_length params :
  length (built_all (general_x310_built params) 0 0
            (General.x310_radios params))
  = 3 * length (General.x310_radios params).
Proof. now apply length_built_all. Qed.

(** ** The whole request: base-station triples, then fixed-endpoint nodes *)

(** X1: a request the OTA-lab profile emits holds three resources for each
    X310 selection followed by one node for each B210 selection, in the order
    of the selections. The node of the [j]-th B210 selection is named after
    its node id with the suffix "-b210", names that node as its component,
    has the srsLTE image and three boot services in a fixed order, and has no
    hardware type, no manager id and no interface. Without any selection the
    request holds no resource, only the two reservations. *)
Theorem otalab_request_layout (params : OtaLab.Params) (r : Request) :
  OtaLab.run params = Emitted r ->
  length (resources r) =
    3 * length (OtaLab.x310_radios params)
    + length (OtaLab.b210_nodes params) /\
  (forall j b210_node,
     nth_error (OtaLab.b210_nodes params) j = Some b210_node ->
     nth_error (resources r) (3 * length (OtaLab.x310_radios params) + j) =
     Some (RNode
       {| client_id := OtaLab.node_id b210_node ++ "-b210";
          hardware_type := None;
          disk_image :=
            Some "urn:publicid:IDN+emulab.net+image+PowderTeam:U18LL-SRSLTE";
          component_manager_id := None;
          component_id := Some (OtaLab.node_id b210_node);
          services :=
            [ mkExecute "bash" "/local/repository/bin/update-config-files.sh";
              mkExecute "bash" "/local/repository/bin/tune-cpu.sh";
              mkExecute "bash"
                "/local/repository/bin/deploy-srs.sh release_22_04" ];
          interfaces := [] |})) /\
  (OtaLab.x310_radios params = [] ->
   OtaLab.b210_nodes params = [] ->
   r = {| resources := [];
          spectrum :=
            [ (OtaLab.ul_freq_min params, OtaLab.ul_freq_max params, 0%Z);
              (OtaLab.dl_freq_min params, OtaLab.dl_freq_max params, 0%Z) ]
       |}).
Proof.
  intros Hrun. apply otalab_run_emitted in Hrun. destruct Hrun as [_ ->].
  unfold otalab_request. cbn [resources spectrum]. split; [|split].
  - rewrite length_app, otalab_front_length.
    rewrite (length_built_all otalab_b210_built 1) by reflexivity. lia.
  - intros j b Hj. rewrite <- otalab_front_length.
    replace j with (1 * j + 0) at 1 by lia.
    rewrite (nth_error_back otalab_b210_built 1 (fun _ _ _ => eq_refl)
               _ _ _ j b 0 Hj) by lia.
    reflexivity.
  - intros -> ->. reflexivity.
Qed.

Lemma otalab_request_layout_witness :
  length (resources (otalab_request two_of_each)) = 3 * 2 + 2 /\
  nth_error (resources (otalab_request two_of_each)) (3 * 2 + 1) =
  Some (RNode
    {| client_id := "ota-nuc2-b210";
       hardware_type := None;
       disk_image :=
         Some "urn:publicid:IDN+emulab.net+image+PowderTeam:U18LL-SRSLTE";
       component_manager_id := None;
       component_id := Some "ota-nuc2";
       services :=
         [ mkExecute "bash" "/local/repository/bin/update-config-files.sh";
           mkExecute "bash" "/local/repository/bin/tune-cpu.sh";
           mkExecute "bash"
             "/local/repository/bin/deploy-srs.sh release_22_04" ];
       interfaces := [] |}).
Proof.
  assert (OtaLab.run two_of_each = Emitted (otalab_request two_of_each)) as H
    by (vm_compute; reflexivity).
  destruct (otalab_request_layout two_of_each _ H) as (Hlen & Hnode & _).
  split.
  - exact Hlen.
  - apply (Hnode 1 (OtaLab.mkB210Node "ota-nuc2")). reflexivity.
Defined.

(** X2: the general profile emits a request for every parameter set and
    never asks for spectrum. The request holds three resources for each
    X310 selection followed by one node for each B210 selection. The node of
    the [j]-th B210 selection is named "b210-<aggregate>-nuc2", is managed by
    the authority of that aggregate, always names the component "nuc2", and
    has neither hardware type nor interface. *)
Theorem general_request_layout (params : General.Params) :
  exists r,
    General.run params = Emitted r /\
    spectrum r = [] /\
    length (resources r) =
      3 * length (General.x310_radios params)
      + length (General.b210_nodes params) /\
    forall j b210_node,
      nth_error (General.b210_nodes params) j = Some b210_node ->
      nth_error (resources r) (3 * length (General.x310_radios params) + j) =
      Some (RNode
        {| client_id :=
             "b210-" ++ General.aggregate_id b210_node ++ "-nuc2";
           hardware_type := None;
           disk_image :=
             Some "urn:publicid:IDN+emulab.net+image+emulab-ops:UBUNTU18-64-STD";
           component_manager_id :=
             Some ("urn:publicid:IDN+" ++ General.aggregate_id b210_node
                     ++ ".powderwireless.net+authority+cm");
           component_id := Some "nuc2";
           services :=
             [ mkExecute "bash"
                 "/local/repository/bin/update-config-files.sh";
               mkExecute "bash" "/local/repository/bin/tune-cpu.sh";
               mkExecute "bash"
                 ("/local/repository/bin/setup.sh " ++ General.token params
                    ++ " " ++ General.user params ++ " "
                    ++ General.password params) ];
           interfaces := [] |}).
Proof.
  exists (general_request params). split; [apply general_run|].
  unfold general_request. cbn [resources spectrum].
  split; [reflexivity|]. split.
  - rewrite length_app, general_front_length.
    rewrite (length_built_all (general_b210_built params) 1) by reflexivity.
    lia.
  - intros j b Hj. rewrite <- general_front_length.
    replace j with (1 * j + 0) at 1 by lia.
    rewrite (nth_error_back (general_b210_built params) 1
               (fun _ _ _ => eq_refl) _ _ _ j b 0 Hj) by lia.
    reflexivity.
Qed.

(** ** The two RawPCs of a base-station pair *)

(** X3: in the emitted request of either profile, the compute node of the
    [k]-th X310 selection has the hardware type chosen by
    [x310_pair_nodetype], the profile's disk image, the Emulab manager id, no
    component id, and its boot services in the order of the script: NAT and
    forwarding, (general profile only) the configuration update, CPU tuning,
    SDR interface tuning, and last the deployment command. In the OTA-lab
    profile that command is "/local/repository/bin/deploy-srs.sh" followed by
    the default srsRAN revision. *)
Theorem compute_node_setup :
  (forall (params : OtaLab.Params) (r : Request) (k : nat)
          (x310_radio : OtaLab.X310Radio),
     OtaLab.run params = Emitted r ->
     nth_error (OtaLab.x310_radios params) k = Some x310_radio ->
     exists n,
       nth_error (resources r) (3 * k + 1) = Some (RNode n) /\
       hardware_type n = Some (OtaLab.x310_pair_nodetype params) /\
       disk_image n =
         Some "urn:publicid:IDN+emulab.net+image+PowderTeam:U18LL-SRSLTE" /\
       component_manager_id n =
         Some "urn:publicid:IDN+emulab.net+authority+cm" /\
       component_id n = None /\
       services n =
         [ mkExecute "bash"
             "/local/repository/bin/add-nat-and-ip-forwarding.sh";
           mkExecute "bash" "/local/repository/bin/tune-cpu.sh";
           mkExecute "bash" "/local/repository/bin/tune-sdr-iface.sh";
           mkExecute "bash"
             "/local/repository/bin/deploy-srs.sh release_22_04" ]) /\
  (forall (params : General.Params) (k : nat)
          (x310_radio : General.X310Radio),
     nth_error (General.x310_radios params) k = Some x310_radio ->
     exists r n,
       General.run params = Emitted r /\
       nth_error (resources r) (3 * k + 1) = Some (RNode n) /\
       hardware_type n = Some (General.x310_pair_nodetype params) /\
       disk_image n =
         Some "urn:publicid:IDN+emulab.net+image+emulab-ops:UBUNTU18-64-STD" /\
       component_manager_id n =
         Some "urn:publicid:IDN+emulab.net+authority+cm" /\
       component_id n = None /\
       services n =
         [ mkExecute "bash"
             "/local/repository/bin/add-nat-and-ip-forwarding.sh";
           mkExecute "bash" "/local/repository/bin/update-config-files.sh";
           mkExecute "bash" "/local/repository/bin/tune-cpu.sh";
           mkExecute "bash" "/local/repository/bin/tune-sdr-iface.sh";
           mkExecute "bash"
             ("/local/repository/bin/setup.sh " ++ General.token params
                ++ " " ++ General.user params ++ " "
                ++ General.password params) ]).
Proof.
  split.
  - intros params r k x Hrun Hk.
    apply otalab_run_emitted in Hrun. destruct Hrun as [_ ->].
    eexists. split.
    + unfold otalab_request. cbn [resources].
      rewrite (nth_error_front (otalab_x310_built params) 3
                 (fun _ _ _ => eq_refl) _ _ k x 1 Hk) by lia.
      reflexivity.
    + repeat split.
  - intros params k x Hk.
    exists (general_request params). eexists.
    split; [apply general_run|]. split.
    + unfold general_request. cbn [resources].
      rewrite (nth_error_front (general_x310_built params) 3
                 (fun _ _ _ => eq_refl) _ _ k x 1 Hk) by lia.
      reflexivity.
    + repeat split.
Qed.

(** X4: in the emitted request of either profile, the radio of the [k]-th
    X310 selection is a RawPC that only names a component: its component id
    is the selected radio, its manager is the Emulab authority, and it has no
    hardware type, no disk image and no boot service. Its only interface is
    the one that adding it to the link creates, "if0", without an address.
    Its name is the radio's name with the suffix "-radio" in the OTA-lab
    profile and "-x310" in the general profile. *)
Theorem radio_component_shape :
  (forall (params : OtaLab.Params) (r : Request) (k : nat)
          (x310_radio : OtaLab.X310Radio),
     OtaLab.run params = Emitted r ->
     nth_error (OtaLab.x310_radios params) k = Some x310_radio ->
     nth_error (resources r) (3 * k + 2) =
     Some (RNode
       {| client_id := OtaLab.radio_name x310_radio ++ "-radio";
          hardware_type := None;
          disk_image := None;
          component_manager_id :=
            Some "urn:publicid:IDN+emulab.net+authority+cm";
          component_id := Some (OtaLab.radio_name x310_radio);
          services := [];
          interfaces := [ mkInterface "if0" [] ] |})) /\
  (forall (params : General.Params) (k : nat)
          (x310_radio : General.X310Radio),
     nth_error (General.x310_radios params) k = Some x310_radio ->
     exists r,
       General.run params = Emitted r /\
       nth_error (resources r) (3 * k + 2) =
       Some (RNode
         {| client_id := General.radio_name x310_radio ++ "-x310";
            hardware_type := None;
            disk_image := None;
            component_manager_id :=
              Some "urn:publicid:IDN+emulab.net+authority+cm";
            component_id := Some (General.radio_name x310_radio);
            services := [];
            interfaces := [ mkInterface "if0" [] ] |})).
Proof.
  split.
  - intros params r k x Hrun Hk.
    apply otalab_run_emitted in Hrun. destruct Hrun as [_ ->].
    unfold otalab_request. cbn [resources].
    rewrite (nth_error_front (otalab_x310_built params) 3
               (fun _ _ _ => eq_refl) _ _ k x 2 Hk) by lia.
    reflexivity.
  - intros params k x Hk.
    exists (general_request params). split; [apply general_run|].
    unfold general_request. cbn [resources].
    rewrite (nth_error_front (general_x310_built params) 3
               (fun _ _ _ => eq_refl) _ _ k x 2 Hk) by lia.
    reflexivity.
Qed.

Lemma compute_node_setup_witness :
  exists n,
    nth_error (resources (otalab_request two_of_each)) (3 * 1 + 1)
    = Some (RNode n) /\
    hardware_type n = Some "d740" /\
    disk_image n =
      Some "urn:publicid:IDN+emulab.net+image+PowderTeam:U18LL-SRSLTE" /\
    component_manager_id n =
      Some "urn:publicid:IDN+emulab.net+authority+cm" /\
    component_id n = None /\
    services n =
      [ mkExecute "bash" "/local/repository/bin/add-nat-and-ip-forwarding.sh";
        mkExecute "bash" "/local/repository/bin/tune-cpu.sh";
        mkExecute "bash" "/local/repository/bin/tune-sdr-iface.sh";
        mkExecute "bash" "/local/repository/bin/deploy-srs.sh release_22_04" ].
Proof.
  apply (proj1 compute_node_setup two_of_each (otalab_request two_of_each) 1
           (OtaLab.mkX310Radio "ota-x310-2")).
  - vm_compute. reflexivity.
  - reflexivity.
Defined.

Lemma radio_component_shape_witness :
  nth_error (resources (otalab_request two_of_each)) (3 * 1 + 2) =
  Some (RNode
    {| client_id := "ota-x310-2-radio";
       hardware_type := None;
       disk_image := None;
       component_manager_id := Some "urn:publicid:IDN+emulab.net+authority+cm";
       component_id := Some "ota-x310-2";
       services := [];
       interfaces := [ mkInterface "if0" [] ] |}).
Proof.
  apply (proj1 radio_component_shape two_of_each (otalab_request two_of_each)
           1 (OtaLab.mkX310Radio "ota-x310-2")).
  - vm_compute. reflexivity.
  - reflexivity.
Defined.

(** ** Names *)

Lemma otalab_link_names params idx base radios :
  link_names (built_all (otalab_x310_built params) idx base radios)
  = map (fun k => "radio-link-" ++ fmt_d k) (seq idx (length radios)).
Proof.
  unfold link_names.
  apply (flat_map_built_all_idx (otalab_x310_built params)). reflexivity.
Qed.

Lemma general_link_names params idx base radios :
  link_names (built_all (general_x310_built params) idx base radios)
  = map (fun k => "radio-link-" ++ fmt_d k) (seq idx (length radios)).
Proof.
  unfold link_names.
  apply (flat_map_built_all_idx (general_x310_built params)). reflexivity.
Qed.

Lemma otalab_b210_no_links idx base nodes :
  link_names (built_all otalab_b210_built idx base nodes) = [].
Proof.
  unfold link_names.
  rewrite (flat_map_built_all otalab_b210_built _ (fun _ => []))
    by reflexivity.
  induction nodes; simpl; auto.
Qed.

Lemma general_b210_no_links params idx base nodes :
  link_names (built_all (general_b210_built params) idx base nodes) = [].
Proof.
  unfold link_names.
  rewrite (flat_map_built_all (general_b210_built params) _ (fun _ => []))
    by reflexivity.
  induction nodes; simpl; auto.
Qed.

Lemma radio_link_names_NoDup (n : nat) :
  NoDup (map (fun k => "radio-link-" ++ fmt_d k) (seq 0 n)).
Proof.
  apply NoDup_map_inj; [|apply seq_NoDup].
  intros a b H. simpl in H. injection H as H. now apply fmt_d_inj.
Qed.

(** X5: in the emitted request of either profile the links are named
    "radio-link-0", "radio-link-1", ... by the position of the X310
    selection, written in decimal; only X310 selections create links, and no
    two links of a request have the same name, even when the same radio is
    selected more than once. *)
Theorem radio_links_are_numbered :
  (forall (params : OtaLab.Params) (r : Request),
     OtaLab.run params = Emitted r ->
     link_names (resources r) =
       map (fun k => "radio-link-" ++ fmt_d k)
           (seq 0 (length (OtaLab.x310_radios params))) /\
     NoDup (link_names (resources r))) /\
  (forall params : General.Params,
     exists r,
       General.run params = Emitted r /\
       link_names (resources r) =
         map (fun k => "radio-link-" ++ fmt_d k)
             (seq 0 (length (General.x310_radios params))) /\
       NoDup (link_names (resources r))) /\
  fmt_d 0 = "0" /\ fmt_d 9 = "9" /\ fmt_d 10 = "10" /\ fmt_d 123 = "123".
Proof.
  split; [|split].
  - intros params r Hrun.
    apply otalab_run_emitted in Hrun. destruct Hrun as [_ ->].
    assert (link_names (resources (otalab_request params)) =
            map (fun k => "radio-link-" ++ fmt_d k)
              (seq 0 (length (OtaLab.x310_radios params)))) as E.
    { unfold otalab_request. cbn [resources].
      unfold link_names at 1. rewrite flat_map_app.
      fold (link_names (built_all (otalab_x310_built params) 0 0
                          (OtaLab.x310_radios params))).
      fold (link_names (built_all otalab_b210_built 0
                          (3 * length (OtaLab.x310_radios params))
                          (OtaLab.b210_nodes params))).
      now rewrite otalab_link_names, otalab_b210_no_links, app_nil_r. }
    split; [exact E|]. rewrite E. apply radio_link_names_NoDup.
  - intros params. exists (general_request params).
    split; [apply general_run|].
    assert (link_names (resources (general_request params)) =
            map (fun k => "radio-link-" ++ fmt_d k)
              (seq 0 (length (General.x310_radios params)))) as E.
    { unfold general_request. cbn [resources].
      unfold link_names at 1. rewrite flat_map_app.
      fold (link_names (built_all (general_x310_built params) 0 0
                          (General.x310_radios params))).
      fold (link_names (built_all (general_b210_built params) 0
                          (3 * length (General.x310_radios params))
                          (General.b210_nodes params))).
      now rewrite general_link_names, general_b210_no_links, app_nil_r. }
    split; [exact E|]. rewrite E. apply radio_link_names_NoDup.
  - repeat split.
Qed.

Lemma last_char_append3 (p a s : string) (ch : ascii) :
  last_char (p ++ a ++ s ++ String ch "") = ch.
Proof.
  unfold last_char. rewrite !chars_append, !app_assoc. simpl.
  apply last_last.
Qed.

Lemma flat_map_of_map {A B C} (f : A -> B) (g : B -> list C) (l : list A) :
  flat_map (fun x => g (f x)) l = flat_map g (map f l).
Proof.
  induction l as [|x l IH]; simpl; [reflexivity | now rewrite IH].
Qed.

Lemma flat_map_singleton {A B} (f : A -> B) (l : list A) :
  flat_map (fun x => [f x]) l = map f l.
Proof.
  induction l as [|x l IH]; simpl; [reflexivity | now rewrite IH].
Qed.

Lemma otalab_node_names params :
  node_names (resources (otalab_request params)) =
  app (flat_map (fun s => [s ++ "-comp"; s ++ "-radio"])
         (map OtaLab.radio_name (OtaLab.x310_radios params)))
      (map (fun s => s ++ "-b210")
         (map OtaLab.node_id (OtaLab.b210_nodes params))).
Proof.
  unfold otalab_request, node_names. cbn [resources].
  rewrite flat_map_app. f_equal.
  - rewrite <- flat_map_of_map.
    apply (flat_map_built_all (otalab_x310_built params)). reflexivity.
  - rewrite map_map, <- flat_map_singleton.
    apply (flat_map_built_all otalab_b210_built). reflexivity.
Qed.

Lemma general_node_names params :
  node_names (resources (general_request params)) =
  app (flat_map (fun s => [s ++ "-comp"; s ++ "-x310"])
         (map General.radio_name (General.x310_radios params)))
      (map (fun s => "b210-" ++ s ++ "-nuc2")
         (map General.aggregate_id (General.b210_nodes params))).
Proof.
  unfold general_request, node_names. cbn [resources].
  rewrite flat_map_app. f_equal.
  - rewrite <- flat_map_of_map.
    apply (flat_map_built_all (general_x310_built params)). reflexivity.
  - rewrite map_map, <- flat_map_singleton.
    apply (flat_map_built_all (general_b210_built params)). reflexivity.
Qed.

(** Closes a goal from an equation between two names whose last characters
    differ. *)
Ltac by_last_char H :=
  apply (f_equal last_char) in H; cbv beta in H;
  repeat match type of H with
         | context [last_char (?a ++ "-comp")] =>
             rewrite (last_char_append a "-com" "p"
                      : last_char (a ++ "-comp") = "p"%char) in H
         | context [last_char (?a ++ "-radio")] =>
             rewrite (last_char_append a "-radi" "o"
                      : last_char (a ++ "-radio") = "o"%char) in H
         | context [last_char (?a ++ "-x310")] =>
             rewrite (last_char_append a "-x31" "0"
                      : last_char (a ++ "-x310") = "0"%char) in H
         | context [last_char (?a ++ "-b210")] =>
             rewrite (last_char_append a "-b21" "0"
                      : last_char (a ++ "-b210") = "0"%char) in H
         | context [last_char ("b210-" ++ ?a ++ "-nuc2")] =>
             rewrite (last_char_append3 "b210-" a "-nuc" "2"
                      : last_char ("b210-" ++ a ++ "-nuc2") = "2"%char) in H
         end;
  discriminate H.

(** X6: the node names of a request the OTA-lab profile emits are pairwise
    distinct exactly when no X310 radio and no B210 node is selected twice.
    The script itself does not reject a repeated selection: it emits two
    nodes of the same name. *)
Theorem otalab_node_names_distinct_iff (params : OtaLab.Params) (r : Request) :
  OtaLab.run params = Emitted r ->
  (NoDup (node_names (resources r)) <->
   NoDup (map OtaLab.radio_name (OtaLab.x310_radios params)) /\
   NoDup (map OtaLab.node_id (OtaLab.b210_nodes params))).
Proof.
  intros Hrun. apply otalab_run_emitted in Hrun. destruct Hrun as [_ ->].
  rewrite otalab_node_names, NoDup_app_iff.
  - rewrite (NoDup_pairs (fun s => s ++ "-comp") (fun s => s ++ "-radio")).
    + rewrite (NoDup_map_inj (fun s => s ++ "-b210")); [reflexivity|].
      intros a b. apply append_inv_tail.
    + intros a b. apply append_inv_tail.
    + intros a b. apply append_inv_tail.
    + intros a b H. by_last_char H.
  - intros y Hy Hy'. apply in_pairs in Hy. apply in_map_iff in Hy'.
    destruct Hy as [s [-> | ->]], Hy' as (t & H & _); by_last_char H.
Qed.

Lemma otalab_node_names_distinct_iff_witness :
  NoDup (node_names (resources (otalab_request two_of_each))) <->
  NoDup ["ota-x310-1"; "ota-x310-2"] /\ NoDup ["ota-nuc1"; "ota-nuc2"].
Proof.
  apply (otalab_node_names_distinct_iff two_of_each).
  vm_compute. reflexivity.
Defined.

(** X7: the same for the general profile, whose nodes are named
    "<radio>-comp", "<radio>-x310" and "b210-<aggregate>-nuc2": the names of
    the emitted request are pairwise distinct exactly when no radio and no
    aggregate is selected twice. *)
Theorem general_node_names_distinct_iff (params : General.Params) :
  exists r,
    General.run params = Emitted r /\
    (NoDup (node_names (resources r)) <->
     NoDup (map General.radio_name (General.x310_radios params)) /\
     NoDup (map General.aggregate_id (General.b210_nodes params))).
Proof.
  exists (general_request params). split; [apply general_run|].
  rewrite general_node_names, NoDup_app_iff.
  - rewrite (NoDup_pairs (fun s => s ++ "-comp") (fun s => s ++ "-x310")).
    + rewrite (NoDup_map_inj (fun s => "b210-" ++ s ++ "-nuc2"));
        [reflexivity|].
      intros a b H. simpl in H. injection H as H.
      now apply append_inv_tail in H.
    + intros a b. apply append_inv_tail.
    + intros a b. apply append_inv_tail.
    + intros a b H. by_last_char H.
  - intros y Hy Hy'. apply in_pairs in Hy. apply in_map_iff in Hy'.
    destruct Hy as [s [-> | ->]], Hy' as (t & H & _); by_last_char H.
Qed.

(** ** Links refer to their own pair only *)

Lemma members_of_links_ok {A} (built : nat -> handle -> A -> list Resource)
  (l : list A) (rest : list Resource) (lk : Link) :
  (forall idx base x, length (built idx base x) = 3) ->
  (forall idx base x,
      exists n rd,
        built idx base x =
        [ RLink {| link_name := "radio-link-" ++ fmt_d idx;
                   bandwidth := Some 10000000%Z;
                   members := [ViaInterface (base + 1) "usrp_if";
                               ViaNode (base + 2)] |};
          RNode n; RNode rd ] /\
        In "usrp_if" (map if_name (interfaces n))) ->
  In (RLink lk) (built_all built 0 0 l) ->
  length (members lk) = 2 /\
  Forall (member_ok (built_all built 0 0 l ++ rest)) (members lk) /\
  Forall (fun e => member_handle e < 3 * length l) (members lk).
Proof.
  intros Hw Hb Hin.
  apply (in_built_all_at built 3 Hw) in Hin.
  destruct Hin as (k & x & Hk & Hin). rewrite !Nat.add_0_l in Hin.
  destruct (Hb k (3 * k) x) as (n & rd & Hbk & Hif).
  assert (k < length l) by (apply nth_error_Some; congruence).
  pose proof (fun j => nth_error_front built 3 Hw l rest k x j Hk) as Hnth.
  rewrite Hbk in Hin, Hnth.
  destruct Hin as [Hin|[Hin|[Hin|[]]]]; try discriminate.
  injection Hin as <-. cbn [members].
  split; [reflexivity|]. split.
  - repeat constructor; simpl.
    + exists n. split; [now rewrite Hnth by lia | exact Hif].
    + exists rd. now rewrite Hnth by lia.
  - repeat constructor; simpl; lia.
Qed.

Lemma otalab_x310_built_link params idx base x :
  exists n rd,
    otalab_x310_built params idx base x =
    [ RLink {| link_name := "radio-link-" ++ fmt_d idx;
               bandwidth := Some 10000000%Z;
               members := [ViaInterface (base + 1) "usrp_if";
                           ViaNode (base + 2)] |};
      RNode n; RNode rd ] /\
    In "usrp_if" (map if_name (interfaces n)).
Proof.
  unfold otalab_x310_built. do 2 eexists. split; [reflexivity|].
  simpl. now left.
Qed.

Lemma general_x310_built_link params idx base x :
  exists n rd,
    general_x310_built params idx base x =
    [ RLink {| link_name := "radio-link-" ++ fmt_d idx;
               bandwidth := Some 10000000%Z;
               members := [ViaInterface (base + 1) "usrp_if";
                           ViaNode (base + 2)] |};
      RNode n; RNode rd ] /\
    In "usrp_if" (map if_name (interfaces n)).
Proof.
  unfold general_x310_built. do 2 eexists. split; [reflexivity|].
  simpl. now left.
Qed.

(** X8: the emitted request of either profile is closed under its links.
    Every link has exactly two members; each member refers to a RawPC the
    request holds, and an interface member names an interface that RawPC
    has; and every member refers to a resource of the X310 part of the
    request, so that no link ever reaches a fixed-endpoint node. *)
Theorem links_refer_to_their_own_pair :
  (forall (params : OtaLab.Params) (r : Request) (l : Link),
     OtaLab.run params = Emitted r ->
     In (RLink l) (resources r) ->
     length (members l) = 2 /\
     Forall (member_ok (resources r)) (members l) /\
     Forall (fun e => member_handle e
                      < 3 * length (OtaLab.x310_radios params))
            (members l)) /\
  (forall (params : General.Params),
     exists r,
       General.run params = Emitted r /\
       forall l,
         In (RLink l) (resources r) ->
         length (members l) = 2 /\
         Forall (member_ok (resources r)) (members l) /\
         Forall (fun e => member_handle e
                          < 3 * length (General.x310_radios params))
                (members l)).
Proof.
  split.
  - intros params r l Hrun Hin.
    apply otalab_run_emitted in Hrun. destruct Hrun as [_ ->].
    unfold otalab_request in *. cbn [resources] in *.
    apply in_app_or in Hin. destruct Hin as [Hin|Hin].
    + apply (members_of_links_ok (otalab_x310_built params)); auto.
      apply otalab_x310_built_link.
    + apply in_built_all in Hin. destruct Hin as (? & ? & ? & _ & Hin).
      destruct Hin as [Hin|[]]. discriminate.
  - intros params. exists (general_request params).
    split; [apply general_run|]. intros l Hin.
    unfold general_request in *. cbn [resources] in *.
    apply in_app_or in Hin. destruct Hin as [Hin|Hin].
    + apply (members_of_links_ok (general_x310_built params)); auto.
      apply general_x310_built_link.
    + apply in_built_all in Hin. destruct Hin as (? & ? & ? & _ & Hin).
      destruct Hin as [Hin|[]]. discriminate.
Qed.

Lemma links_refer_to_their_own_pair_witness :
  length (members {| link_name := "radio-link-1";
                     bandwidth := Some 10000000%Z;
                     members := [ViaInterface 4 "usrp_if"; ViaNode 5] |}) = 2 /\
  Forall (member_ok (resources (otalab_request two_of_each)))
    [ViaInterface 4 "usrp_if"; ViaNode 5] /\
  Forall (fun e => member_handle e < 3 * 2)
    [ViaInterface 4 "usrp_if"; ViaNode 5].
Proof.
  apply (proj1 links_refer_to_their_own_pair two_of_each
           (otalab_request two_of_each)
           {| link_name := "radio-link-1";
              bandwidth := Some 10000000%Z;
              members := [ViaInterface 4 "usrp_if"; ViaNode 5] |}).
  - vm_compute. reflexivity.
  - vm_compute. right; right; right; left. reflexivity.
Defined.

(** ** What the accepted frequencies guarantee *)

(** X9: every reservation of a request the OTA-lab profile emits has the
    third component 0, and none of the script's comparisons holds for it:
    no bound is below 3358 or above 3600 and the difference is not below 1.
    So whenever its two bounds are numbers (not NaN) they lie within
    3358..3600, and whenever their difference is a number it is at least
    1. *)
Theorem emitted_reservations_within_band
  (params : OtaLab.Params) (r : Request) (lo hi : float) (power : Z) :
  OtaLab.run params = Emitted r ->
  In (lo, hi, power) (spectrum r) ->
  power = 0%Z /\
  (lo <? 3358)%float = false /\ (3600 <? lo)%float = false /\
  (hi <? 3358)%float = false /\ (3600 <? hi)%float = false /\
  (hi - lo <? 1)%float = false /\
  (is_nan lo = false -> is_nan hi = false -> in_band lo /\ in_band hi) /\
  (is_nan (hi - lo) = false -> separated lo hi).
Proof.
  intros Hrun Hin. apply otalab_run_emitted in Hrun.
  destruct Hrun as [Hv ->]. apply violations_nil_iff in Hv.
  destruct Hv as (UB & US & DB & DS).
  assert (forall a b,
            flt a 3358 || fgt a 3600 || flt b 3358 || fgt b 3600 = false ->
            flt (b - a) 1 = false ->
            (a <? 3358)%float = false /\ (3600 <? a)%float = false /\
            (b <? 3358)%float = false /\ (3600 <? b)%float = false /\
            (b - a <? 1)%float = false /\
            (is_nan a = false -> is_nan b = false -> in_band a /\ in_band b) /\
            (is_nan (b - a) = false -> separated a b)) as K.
  { intros a b B S. pose proof B as B'.
    apply orb_false_iff in B'. destruct B' as [B' B4].
    apply orb_false_iff in B'. destruct B' as [B' B3].
    apply orb_false_iff in B'. destruct B' as [B1 B2].
    split; [exact B1|]. split; [exact B2|]. split; [exact B3|].
    split; [exact B4|]. split; [exact S|]. split.
    - intros Na Nb. now apply not_out_in_band.
    - intros N. now apply not_close_separated. }
  simpl in Hin. destruct Hin as [E|[E|[]]]; injection E as <- <- <-;
    (split; [reflexivity|]); now apply K.
Qed.

Lemma emitted_reservations_within_band_witness :
  0%Z = 0%Z /\
  (3580 <? 3358)%float = false /\ (3600 <? 3580)%float = false /\
  (3600 <? 3358)%float = false /\ (3600 <? 3600)%float = false /\
  (3600 - 3580 <? 1)%float = false /\
  (is_nan 3580 = false -> is_nan 3600 = false ->
   in_band 3580 /\ in_band 3600) /\
  (is_nan (3600 - 3580) = false -> separated 3580 3600).
Proof.
  apply (emitted_reservations_within_band two_of_each
           (otalab_request two_of_each) 3580 3600 0).
  - vm_compute. reflexivity.
  - right; left. reflexivity.
Defined.

(** X15: for numbers the checks are complete. When none of the four
    frequencies and neither of the two differences is NaN, a parameter set
    that breaks a band or separation rule is rejected: the run stops at
    [verifyParameters] with at least one error, before a request exists, and
    prints nothing. *)
Theorem numeric_violations_emit_nothing (params : OtaLab.Params) :
  is_nan (OtaLab.ul_freq_min params) = false ->
  is_nan (OtaLab.ul_freq_max params) = false ->
  is_nan (OtaLab.ul_freq_max params - OtaLab.ul_freq_min params) = false ->
  is_nan (OtaLab.dl_freq_min params) = false ->
  is_nan (OtaLab.dl_freq_max params) = false ->
  is_nan (OtaLab.dl_freq_max params - OtaLab.dl_freq_min params) = false ->
  ~ valid_frequencies params ->
  exists errs,
    errs <> [] /\
    OtaLab.main params fresh = Exit (mkContext errs None None) /\
    OtaLab.run params = Rejected errs /\
    forall r, OtaLab.run params <> Emitted r.
Proof.
  intros N1 N2 N3 N4 N5 N6 Hv.
  assert (violations params <> []) as Hne.
  { intros E. apply violations_nil_iff in E.
    destruct E as (UB & US & DB & DS). apply Hv.
    destruct (not_out_in_band _ _ N1 N2 UB) as [U1 U2].
    destruct (not_out_in_band _ _ N4 N5 DB) as [D1 D2].
    unfold valid_frequencies. repeat split;
      first [ apply U1 | apply U2 | apply D1 | apply D2
            | now apply not_close_separated ]. }
  assert (OtaLab.main params fresh
          = Exit (mkContext (violations params) None None)) as Hmain.
  { rewrite otalab_main. simpl.
    destruct (violations params); [now elim Hne | reflexivity]. }
  exists (violations params). split; [exact Hne|]. split; [exact Hmain|].
  unfold OtaLab.run. rewrite Hmain. split; [reflexivity | discriminate].
Qed.

Lemma numeric_violations_emit_nothing_witness :
  exists errs,
    errs <> [] /\
    OtaLab.main (lab_defaults 3550 3550.5 3580 3600) fresh
    = Exit (mkContext errs None None) /\
    OtaLab.run (lab_defaults 3550 3550.5 3580 3600) = Rejected errs /\
    forall r, OtaLab.run (lab_defaults 3550 3550.5 3580 3600) <> Emitted r.
Proof.
  apply (numeric_violations_emit_nothing
           (lab_defaults 3550 3550.5 3580 3600)); try Fcmp.
  intros (_ & _ & H & _). vm_compute in H. discriminate.
Defined.

(** X10: the uplink and the downlink pair are validated separately and are
    never compared with each other: a parameter set whose downlink range is
    the very same as its valid uplink range is accepted, and the request
    reserves that range twice. *)
Theorem uplink_and_downlink_may_coincide
  (nodetype : string) (radios : list OtaLab.X310Radio)
  (nodes : list OtaLab.B210Node) (lo hi : float) :
  in_band lo -> in_band hi -> separated lo hi ->
  exists r,
    OtaLab.run (OtaLab.mkParams nodetype radios nodes lo hi lo hi)
    = Emitted r /\
    spectrum r = [(lo, hi, 0%Z); (lo, hi, 0%Z)].
Proof.
  intros Hlo Hhi Hsep. eexists. split.
  - apply otalab_run_valid. unfold valid_frequencies. simpl. tauto.
  - reflexivity.
Qed.

Lemma uplink_and_downlink_may_coincide_witness :
  exists r,
    OtaLab.run (OtaLab.mkParams "d430" [OtaLab.mkX310Radio "ota-x310-1"]
                  [OtaLab.mkB210Node "ota-nuc1"] 3550 3570 3550 3570)
    = Emitted r /\
    spectrum r = [(3550%float, 3570%float, 0%Z); (3550%float, 3570%float, 0%Z)].
Proof.
  apply (uplink_and_downlink_may_coincide "d430"
           [OtaLab.mkX310Radio "ota-x310-1"] [OtaLab.mkB210Node "ota-nuc1"]
           3550 3570);
    unfold in_band, separated; try split; Fcmp.
Defined.

(** X11: when the OTA-lab profile rejects its parameters, the reported list
    holds between one and four errors, none of them twice, always in the
    order of the checks: uplink band, uplink separation, downlink band,
    downlink separation. *)
Theorem errors_come_in_check_order
  (params : OtaLab.Params) (errs : list ParameterError) :
  OtaLab.run params = Rejected errs ->
  (exists b1 b2 b3 b4,
     errs = (error_if b1 OtaLab.perr_ul_band
             ++ error_if b2 OtaLab.perr_ul_sep
             ++ error_if b3 OtaLab.perr_dl_band
             ++ error_if b4 OtaLab.perr_dl_sep)%list) /\
  NoDup errs /\
  1 <= length errs <= 4.
Proof.
  intros Hrun. apply otalab_run_rejected in Hrun. destruct Hrun as [-> Hne].
  unfold violations in *.
  split; [|split].
  - exists (OtaLab.ul_out_of_band params), (OtaLab.ul_too_close params),
      (OtaLab.dl_out_of_band params), (OtaLab.dl_too_close params).
    reflexivity.
  - destruct (OtaLab.ul_out_of_band params), (OtaLab.ul_too_close params),
      (OtaLab.dl_out_of_band params), (OtaLab.dl_too_close params);
      simpl; repeat constructor; simpl; intuition discriminate.
  - destruct (OtaLab.ul_out_of_band params), (OtaLab.ul_too_close params),
      (OtaLab.dl_out_of_band params), (OtaLab.dl_too_close params);
      simpl in *; try lia. now elim Hne.
Qed.

Lemma errors_come_in_check_order_witness :
  (exists b1 b2 b3 b4,
     [OtaLab.perr_ul_band; OtaLab.perr_ul_sep; OtaLab.perr_dl_sep] =
     (error_if b1 OtaLab.perr_ul_band
      ++ error_if b2 OtaLab.perr_ul_sep
      ++ error_if b3 OtaLab.perr_dl_band
      ++ error_if b4 OtaLab.perr_dl_sep)%list) /\
  NoDup [OtaLab.perr_ul_band; OtaLab.perr_ul_sep; OtaLab.perr_dl_sep] /\
  1 <= length [OtaLab.perr_ul_band; OtaLab.perr_ul_sep; OtaLab.perr_dl_sep]
  <= 4.
Proof.
  apply (errors_come_in_check_order (lab_defaults 3700 3700.5 3590 3580)).
  vm_compute. reflexivity.
Defined.

(** ** The builders leave what is there alone *)

(** X12: each of the four builders only appends. Called on a request that
    already holds resources, [x310_node_pair] adds three resources and
    [b210_nuc_pair] adds one, behind those already there; the earlier
    resources, the reservations, the recorded errors and the output stay as
    they were, although the builders go on changing the objects they
    created. *)
Theorem builders_only_append :
  (forall (params : OtaLab.Params) idx x310_radio,
     only_appends (OtaLab.x310_node_pair params idx x310_radio) 3) /\
  (forall idx b210_node,
     only_appends (OtaLab.b210_nuc_pair idx b210_node) 1) /\
  (forall (params : General.Params) idx x310_radio,
     only_appends
       (General.x310_node_pair params idx x310_radio (General.token params)
          (General.user params) (General.password params)) 3) /\
  (forall (params : General.Params) idx b210_node,
     only_appends
       (General.b210_nuc_pair idx b210_node (General.token params)
          (General.user params) (General.password params)) 1).
Proof.
  split; [|split; [|split]]; intros; intros errs r0 pr; eexists.
  - split; [|apply otalab_x310_node_pair_appends]. reflexivity.
  - split; [|apply otalab_b210_nuc_pair_appends]. reflexivity.
  - split; [|apply general_x310_node_pair_appends]. reflexivity.
  - split; [|apply general_b210_nuc_pair_appends]. reflexivity.
Qed.

(** ** Validation and the selections *)

(** X13: whether the OTA-lab profile accepts its parameters, and which
    errors it reports, depends on the four frequencies only: two parameter
    sets with the same frequencies are both accepted or both rejected with
    the same errors, whatever node type, radios and nodes they select. *)
Theorem validation_ignores_selections (p1 p2 : OtaLab.Params) :
  OtaLab.ul_freq_min p1 = OtaLab.ul_freq_min p2 ->
  OtaLab.ul_freq_max p1 = OtaLab.ul_freq_max p2 ->
  OtaLab.dl_freq_min p1 = OtaLab.dl_freq_min p2 ->
  OtaLab.dl_freq_max p1 = OtaLab.dl_freq_max p2 ->
  (forall errs,
     OtaLab.run p1 = Rejected errs <-> OtaLab.run p2 = Rejected errs) /\
  ((exists r, OtaLab.run p1 = Emitted r) <->
   (exists r, OtaLab.run p2 = Emitted r)).
Proof.
  intros E1 E2 E3 E4.
  assert (violations p1 = violations p2) as Ev.
  { unfold violations, OtaLab.ul_out_of_band, OtaLab.ul_too_close,
      OtaLab.dl_out_of_band, OtaLab.dl_too_close.
    now rewrite E1, E2, E3, E4. }
  unfold OtaLab.run. rewrite !otalab_main, Ev. simpl.
  destruct (violations p2); simpl; split.
  - intros errs. split; discriminate.
  - split; intros _; eexists; reflexivity.
  - intros errs. reflexivity.
  - split; intros [r H]; discriminate.
Qed.

Lemma validation_ignores_selections_witness :
  (forall errs,
     OtaLab.run (lab_defaults 3550 3550.5 3580 3600) = Rejected errs <->
     OtaLab.run (OtaLab.mkParams "d740" [] [] 3550 3550.5 3580 3600)
     = Rejected errs) /\
  ((exists r, OtaLab.run (lab_defaults 3550 3550.5 3580 3600) = Emitted r) <->
   (exists r,
      OtaLab.run (OtaLab.mkParams "d740" [] [] 3550 3550.5 3580 3600)
      = Emitted r)).
Proof.
  apply (validation_ignores_selections
           (lab_defaults 3550 3550.5 3580 3600)
           (OtaLab.mkParams "d740" [] [] 3550 3550.5 3580 3600));
    reflexivity.
Defined.

(** X14: the default frequencies the OTA-lab profile declares for its four
    parameters pass its own checks, the downlink maximum sitting exactly on
    the upper band edge: with the defaults every selection is accepted, and
    the request reserves 3550..3570 and 3580..3600. *)
Theorem default_frequencies_are_accepted
  (nodetype : string) (radios : list OtaLab.X310Radio)
  (nodes : list OtaLab.B210Node) :
  exists r,
    OtaLab.run (OtaLab.mkParams nodetype radios nodes
                  OtaLab.GLOBALS.ULDEFLOFREQ OtaLab.GLOBALS.ULDEFHIFREQ
                  OtaLab.GLOBALS.DLDEFLOFREQ OtaLab.GLOBALS.DLDEFHIFREQ)
    = Emitted r /\
    spectrum r = [(3550%float, 3570%float, 0%Z); (3580%float, 3600%float, 0%Z)] /\
    length (resources r) = 3 * length radios + length nodes.
Proof.
  eexists. split; [|split].
  - apply otalab_run_valid.
    unfold valid_frequencies, in_band, separated. simpl.
    repeat split; Fcmp.
  - reflexivity.
  - unfold otalab_request. cbn [resources OtaLab.x310_radios
      OtaLab.b210_nodes].
    rewrite length_app, (length_built_all _ 3), (length_built_all _ 1)
      by reflexivity.
    lia.
Qed.
